(** * Student management service: models.py and routes.py

    A shallow embedding of the student CRUD service.  The request bodies are
    loosely typed ([Dict[str, Any]] decoded from JSON), so values are kept in
    a dynamic value type; dictionaries are association lists in insertion
    order, as Python dictionaries and stored documents are.  The handlers of
    routes.py run in a state-and-exception monad over the [students]
    collection; every handler is taken as one atomic step (no interleaving of
    requests). *)

From Stdlib Require Import ZArith List String Ascii Bool Lia.
Import ListNotations.
Set Warnings "-register-all".
Open Scope string_scope.
Open Scope Z_scope.

(** ** Python values *)

Module Py.

(** A decoded JSON value.  A float is carried as its IEEE 754 binary64 bit
    pattern; the code only looks at its type and at whether it is zero. *)
Inductive pyval : Type :=
| VNone
| VBool (b : bool)
| VInt (z : Z)
| VFloat (bits : Z)
| VStr (s : string)
| VList (l : list pyval)
| VDict (d : list (string * pyval)).

Definition dict := list (string * pyval).

(** Structural equality (same type, same content, same key order). *)
Fixpoint pyval_eqb (a b : pyval) : bool :=
  match a, b with
  | VNone, VNone => true
  | VBool x, VBool y => Bool.eqb x y
  | VInt x, VInt y => Z.eqb x y
  | VFloat x, VFloat y => Z.eqb x y
  | VStr x, VStr y => String.eqb x y
  | VList x, VList y =>
      (fix go (x y : list pyval) : bool :=
         match x, y with
         | [], [] => true
         | a :: x', b :: y' => pyval_eqb a b && go x' y'
         | _, _ => false
         end) x y
  | VDict x, VDict y =>
      (fix go (x y : list (string * pyval)) : bool :=
         match x, y with
         | [], [] => true
         | (k, a) :: x', (k', b) :: y' =>
             String.eqb k k' && pyval_eqb a b && go x' y'
         | _, _ => false
         end) x y
  | _, _ => false
  end.

Definition dict_eqb (x y : dict) : bool := pyval_eqb (VDict x) (VDict y).

(** Exceptions.  The detail of the two "invalid field" responses of
    update_student ends with [', '.join(...)] over a Python set, whose
    iteration order is not fixed; those details are kept symbolic. *)
Inductive detail : Type :=
| Msg (s : string)
| InvalidField (key : string)
| InvalidAddressField (key : pyval).

Inductive exn : Type :=
| HTTPException (status_code : Z) (d : detail)
| KeyError (key : string)
| ValueError (msg : string)
| TypeError
| AttributeError
| InvalidId (oid : string)
| DuplicateKeyError
| OverflowError
| InvalidDocument.

Definition result (A : Type) : Type := (exn + A)%type.

Definition ok {A} (a : A) : result A := inr a.
Definition throw {A} (e : exn) : result A := inl e.
Definition rbind {A B} (c : result A) (k : A -> result B) : result B :=
  match c with
  | inl e => inl e
  | inr a => k a
  end.

(** [str(e)] for the two exceptions create_student catches; the key of a
    KeyError is shown by its repr. *)
Definition str_exn (e : exn) : string :=
  match e with
  | KeyError k => "'" ++ k ++ "'"
  | ValueError m => m
  | _ => ""
  end.

(** *** Dictionaries *)

Fixpoint dict_get {A} (d : list (string * A)) (k : string) : option A :=
  match d with
  | [] => None
  | (k', v) :: d' => if String.eqb k' k then Some v else dict_get d' k
  end.

Definition dict_has {A} (d : list (string * A)) (k : string) : bool :=
  match dict_get d k with
  | Some _ => true
  | None => false
  end.

(** [d[k] = v]: an existing key keeps its position, a new one goes last. *)
Fixpoint dict_set {A} (d : list (string * A)) (k : string) (v : A)
  : list (string * A) :=
  match d with
  | [] => [(k, v)]
  | (k', v') :: d' =>
      if String.eqb k' k then (k', v) :: d' else (k', v') :: dict_set d' k v
  end.

(** [d[k]] *)
Definition dict_getitem (d : dict) (k : string) : result pyval :=
  match dict_get d k with
  | Some v => ok v
  | None => throw (KeyError k)
  end.

(** [d.get(k)] *)
Definition dict_get_default (d : dict) (k : string) : pyval :=
  match dict_get d k with
  | Some v => v
  | None => VNone
  end.

(** *** Builtins on dynamic values *)

(** [bool(v)] *)
Definition truthy (v : pyval) : bool :=
  match v with
  | VNone => false
  | VBool b => b
  | VInt z => negb (z =? 0)
  | VFloat bits => negb (Z.land bits (2 ^ 63 - 1) =? 0)
  | VStr s => negb (String.eqb s "")
  | VList l => match l with [] => false | _ => true end
  | VDict d => match d with [] => false | _ => true end
  end.

(** [isinstance(v, str)] *)
Definition is_str (v : pyval) : bool :=
  match v with VStr _ => true | _ => false end.

(** [isinstance(v, int)]: bool is a subclass of int. *)
Definition is_int (v : pyval) : bool :=
  match v with VInt _ | VBool _ => true | _ => false end.

(** [v < 0] for an instance of int. *)
Definition int_negative (v : pyval) : bool :=
  match v with VInt z => z <? 0 | _ => false end.

Fixpoint chars (s : string) : list pyval :=
  match s with
  | EmptyString => []
  | String c s' => VStr (String c EmptyString) :: chars s'
  end.

(** [for key in v]: the items the loop visits. *)
Definition py_iter (v : pyval) : result (list pyval) :=
  match v with
  | VDict d => ok (map (fun kv => VStr (fst kv)) d)
  | VList l => ok l
  | VStr s => ok (chars s)
  | _ => throw TypeError
  end.

Definition str_in (k : string) (l : list string) : bool :=
  existsb (String.eqb k) l.

(** [key in allowed] for a set of strings: the key is hashed first. *)
Definition in_str_set (key : pyval) (allowed : list string) : result bool :=
  match key with
  | VList _ | VDict _ => throw TypeError
  | VStr s => ok (str_in s allowed)
  | _ => ok false
  end.

(** [k in v] for a string [k]. *)
Definition py_contains (k : string) (v : pyval) : result bool :=
  match v with
  | VDict d => ok (dict_has d k)
  | VList l => ok (existsb (pyval_eqb (VStr k)) l)
  | VStr s => ok (match index 0 k s with Some _ => true | None => false end)
  | _ => throw TypeError
  end.

(** [v[k]] for a string [k]. *)
Definition py_getitem (v : pyval) (k : string) : result pyval :=
  match v with
  | VDict d => dict_getitem d k
  | _ => throw TypeError
  end.

(** [v[k] = x] for a string [k]; gives the updated container. *)
Definition py_setitem (v : pyval) (k : string) (x : pyval) : result pyval :=
  match v with
  | VDict d => ok (VDict (dict_set d k x))
  | _ => throw TypeError
  end.

(** [v.copy()] *)
Definition py_copy (v : pyval) : result pyval :=
  match v with
  | VDict d => ok (VDict d)
  | VList l => ok (VList l)
  | _ => throw AttributeError
  end.

End Py.
Export Py.

Notation "x <- c ;; k" := (rbind c (fun x => k))
  (at level 61, c at next level, right associativity).

(** ** models.py *)

Module Models.

Record Address : Type := mkAddress { city : pyval; country : pyval }.

(** [Address.__init__] *)
Definition Address_init (city country : pyval) : result Address :=
  if negb (truthy city) || negb (truthy country)
  then throw (ValueError "City and country are required")
  else ok (mkAddress city country).

(** [Address.to_dict] *)
Definition Address_to_dict (a : Address) : dict :=
  [("city", city a); ("country", country a)].

Record Student : Type :=
  mkStudent { name : pyval; age : pyval; address : Address }.

(** [Student.__init__] *)
Definition Student_init (name age address : pyval) : result Student :=
  if negb (truthy name) || negb (is_str name)
  then throw (ValueError "Name must be a non-empty string")
  else if negb (is_int age) || int_negative age
  then throw (ValueError "Age must be a non-negative integer")
  else
    match address with
    | VDict d =>
        a <- Address_init (dict_get_default d "city")
                          (dict_get_default d "country") ;;
        ok (mkStudent name age a)
    | _ => throw (ValueError "Address must be a dictionary")
    end.

(** [Student.to_dict] *)
Definition Student_to_dict (s : Student) : dict :=
  [("name", name s); ("age", age s);
   ("address", VDict (Address_to_dict (address s)))].

(** [Student.from_dict] *)
Definition Student_from_dict (data : dict) : result Student :=
  n <- dict_getitem data "name" ;;
  a <- dict_getitem data "age" ;;
  addr <- dict_getitem data "address" ;;
  Student_init n a addr.

End Models.
Export Models.

(** ** The storage collaborator

    [bson.ObjectId] and the [students] collection of the database driver are
    libraries outside the repository.  They are modelled as an ideal document
    store: a document the driver can encode is kept exactly as it was
    written, identifiers are unique, and the collection is listed in
    insertion order.  A [$set] that changes nothing (an empty one included)
    is accepted and reported as no modification.  Strings are well-formed
    text; limits on the size and the depth of a document are left out. *)

Module Storage.

Definition is_hex (c : ascii) : bool :=
  let n := N_of_ascii c in
  ((48 <=? n) && (n <=? 57) || (97 <=? n) && (n <=? 102)
   || (65 <=? n) && (n <=? 70))%N.

Definition lower (c : ascii) : ascii :=
  let n := N_of_ascii c in
  if ((65 <=? n) && (n <=? 90))%N then ascii_of_N (n + 32) else c.

(** ASCII white space, which [bytes.fromhex] skips around the bytes. *)
Definition is_space (c : ascii) : bool :=
  let n := N_of_ascii c in
  ((9 <=? n) && (n <=? 13) || (n =? 32))%N.

(** [bytes.fromhex(s)], the bytes written back as lower-case hexadecimal
    digits: two digits for each byte, white space allowed before, between
    and after the bytes but not inside one. *)
Fixpoint fromhex (s : string) : option string :=
  match s with
  | EmptyString => Some EmptyString
  | String c s' =>
      if is_space c then fromhex s'
      else if is_hex c then
        match s' with
        | String c' s'' =>
            if is_hex c' then
              match fromhex s'' with
              | Some h => Some (String (lower c) (String (lower c') h))
              | None => None
              end
            else None
        | EmptyString => None
        end
      else None
  end.

(** An object id, written as the lower-case hexadecimal digits of its
    bytes (what [str] gives): 24 digits for the twelve bytes of an id the
    driver generates. *)
Definition oid := string.

(** [ObjectId.is_valid(id)] for a string: 24 characters that
    [bytes.fromhex] accepts. *)
Definition is_valid (id : string) : bool :=
  Nat.eqb (String.length id) 24
  && match fromhex id with Some _ => true | None => false end.

(** [ObjectId(id)] for a string: a string of another length, or one that
    [bytes.fromhex] refuses, raises [InvalidId]. *)
Definition ObjectId (id : string) : result oid :=
  if Nat.eqb (String.length id) 24 then
    match fromhex id with
    | Some h => ok h
    | None => throw (InvalidId id)
    end
  else throw (InvalidId id).

(** What the driver refuses to encode as BSON, in the order it meets it:
    an integer that does not fit in 8 bytes ([OverflowError]) and a key
    with a NUL character ([InvalidDocument]).  A boolean is not encoded as
    an integer. *)
Definition int64 (z : Z) : bool := (- 2 ^ 63 <=? z) && (z <? 2 ^ 63).

Fixpoint has_nul (s : string) : bool :=
  match s with
  | EmptyString => false
  | String c s' => (N_of_ascii c =? 0)%N || has_nul s'
  end.

Fixpoint bson_error (v : pyval) : option exn :=
  match v with
  | VInt z => if int64 z then None else Some OverflowError
  | VList l =>
      (fix go (l : list pyval) : option exn :=
         match l with
         | [] => None
         | x :: l' =>
             match bson_error x with
             | Some e => Some e
             | None => go l'
             end
         end) l
  | VDict d =>
      (fix go (d : list (string * pyval)) : option exn :=
         match d with
         | [] => None
         | (k, x) :: d' =>
             if has_nul k then Some InvalidDocument
             else match bson_error x with
                  | Some e => Some e
                  | None => go d'
                  end
         end) d
  | _ => None
  end.

Definition document := dict.

(** The [students] collection: the documents with their [_id], in insertion
    order. *)
Definition collection := list (oid * document).

Fixpoint find_one (c : collection) (i : oid) : option document :=
  match c with
  | [] => None
  | (j, d) :: c' => if String.eqb j i then Some d else find_one c' i
  end.

(** [insert_one] with the identifier the driver generated. *)
Definition insert_one (c : collection) (fresh : oid) (d : document)
  : result collection :=
  match find_one c fresh with
  | Some _ => throw DuplicateKeyError
  | None => ok (c ++ [(fresh, d)])%list
  end.

(** [{"$set": upd}] applied to one document. *)
Definition apply_set (d : document) (upd : dict) : document :=
  fold_left (fun acc kv => dict_set acc (fst kv) (snd kv)) upd d.

(** [update_one({"_id": i}, {"$set": upd})]: the new collection and
    [modified_count].  A write that leaves the document as it was counts as
    no modification. *)
Fixpoint update_one (c : collection) (i : oid) (upd : dict)
  : collection * Z :=
  match c with
  | [] => ([], 0)
  | (j, d) :: c' =>
      if String.eqb j i then
        let d' := apply_set d upd in
        if dict_eqb d' d then ((j, d) :: c', 0) else ((j, d') :: c', 1)
      else
        let '(c'', n) := update_one c' i upd in ((j, d) :: c'', n)
  end.

(** [delete_one({"_id": i})]: the new collection and [deleted_count]. *)
Fixpoint delete_one (c : collection) (i : oid) : collection * Z :=
  match c with
  | [] => ([], 0)
  | (j, d) :: c' =>
      if String.eqb j i then (c', 1)
      else let '(c'', n) := delete_one c' i in ((j, d) :: c'', n)
  end.

(** Query conditions on a dotted field path. *)
Inductive cond : Type :=
| CEq (v : pyval)
| CGte (n : Z).

Definition query := list (list string * cond).

(** What the driver refuses to encode in a query. *)
Definition cond_error (c : cond) : option exn :=
  match c with
  | CEq v => bson_error v
  | CGte n => bson_error (VInt n)
  end.

Fixpoint query_error (q : query) : option exn :=
  match q with
  | [] => None
  | pc :: q' =>
      match cond_error (snd pc) with
      | Some e => Some e
      | None => query_error q'
      end
  end.

Fixpoint lookup_path (d : dict) (p : list string) : option pyval :=
  match p with
  | [] => None
  | k :: p' =>
      match p' with
      | [] => dict_get d k
      | _ =>
          match dict_get d k with
          | Some (VDict d') => lookup_path d' p'
          | _ => None
          end
      end
  end.

(** [x >= n] for a binary64 bit pattern [x] and an integer [n]. *)
Definition float_ge (bits n : Z) : bool :=
  let neg := Z.testbit bits 63 in
  let e := Z.land (Z.shiftr bits 52) 2047 in
  let m := Z.land bits (2 ^ 52 - 1) in
  if e =? 2047 then (m =? 0) && negb neg
  else
    let mant := if e =? 0 then m else m + 2 ^ 52 in
    let ex := (if e =? 0 then 1 else e) - 1075 in
    let sm := if neg then - mant else mant in
    if 0 <=? ex then n <=? sm * 2 ^ ex else n * 2 ^ (- ex) <=? sm.

Definition num_ge (v : pyval) (n : Z) : bool :=
  match v with
  | VInt z => n <=? z
  | VFloat bits => float_ge bits n
  | _ => false
  end.

(** A condition holds of a value, or of some element of an array value. *)
Definition cond_holds (c : cond) (v : pyval) : bool :=
  let test :=
    match c with
    | CEq w => fun x => pyval_eqb x w
    | CGte n => fun x => num_ge x n
    end in
  test v || match v with VList l => existsb test l | _ => false end.

Definition matches (q : query) (d : document) : bool :=
  forallb (fun pc =>
             match lookup_path d (fst pc) with
             | Some v => cond_holds (snd pc) v
             | None => false
             end) q.

(** [find(q)] followed by [to_list(length)]. *)
Definition find_to_list (c : collection) (q : query) (length : nat)
  : list document :=
  firstn length (filter (matches q) (map snd c)).

End Storage.
Export Storage.

(** ** routes.py *)

Module Routes.

(** A handler: it may read and write the [students] collection and either
    returns or raises.  A raised exception keeps the writes made so far. *)
Definition M (A : Type) : Type := collection -> result A * collection.

Definition ret {A} (a : A) : M A := fun c => (ok a, c).
Definition raise {A} (e : exn) : M A := fun c => (throw e, c).
Definition bind {A B} (m : M A) (k : A -> M B) : M B :=
  fun c =>
    match m c with
    | (inl e, c') => (inl e, c')
    | (inr a, c') => k a c'
    end.
Definition lift {A} (r : result A) : M A := fun c => (r, c).

(** [try: body except ...: handler(e)] *)
Definition try_except {A} (body : M A) (handler : exn -> M A) : M A :=
  fun c =>
    match body c with
    | (inl e, c') => handler e c'
    | (inr a, c') => (inr a, c')
    end.

Notation "x <~ c ;; k" := (bind c (fun x => k))
  (at level 61, c at next level, right associativity).

(** [for x in l: body(x)] *)
Fixpoint for_ {A} (l : list A) (body : A -> M unit) : M unit :=
  match l with
  | [] => ret tt
  | x :: l' => _ <~ body x ;; for_ l' body
  end.

Fixpoint map_result {A B} (f : A -> result B) (l : list A)
  : result (list B) :=
  match l with
  | [] => ok []
  | x :: l' => y <- f x ;; ys <- map_result f l' ;; ok (y :: ys)
  end.

(** The calls on [db.students].  The driver encodes what it sends before
    anything reaches the collection. *)
Definition db_insert_one (fresh : oid) (d : document) : M unit :=
  fun c =>
    match bson_error (VDict d) with
    | Some e => (throw e, c)
    | None =>
        match insert_one c fresh d with
        | inl e => (inl e, c)
        | inr c' => (ok tt, c')
        end
    end.
Definition db_find_one (i : oid) : M (option document) :=
  fun c => (ok (find_one c i), c).
Definition db_update_one (i : oid) (upd : dict) : M Z :=
  fun c =>
    match bson_error (VDict upd) with
    | Some e => (throw e, c)
    | None => let '(c', n) := update_one c i upd in (ok n, c')
    end.
Definition db_delete_one (i : oid) : M Z :=
  fun c => let '(c', n) := delete_one c i in (ok n, c').
Definition db_find (q : query) (length : nat) : M (list document) :=
  fun c =>
    match query_error q with
    | Some e => (throw e, c)
    | None => (ok (find_to_list c q length), c)
    end.

(** What a handler hands back to the framework: a JSON body with its status
    code, or [Response(status_code=...)] without a body. *)
Inductive response : Type :=
| Json (status_code : Z) (content : pyval)
| Response (status_code : Z).

Definition not_found : exn := HTTPException 404 (Msg "Student not found").

(** [create_student]; [fresh] is the identifier the driver gives the new
    document. *)
Definition create_student (fresh : oid) (student_data : dict) : M response :=
  try_except
    (student <~ lift (n <- dict_getitem student_data "name" ;;
                      a <- dict_getitem student_data "age" ;;
                      addr <- dict_getitem student_data "address" ;;
                      Student_init n a addr) ;;
     _ <~ db_insert_one fresh (Student_to_dict student) ;;
     ret (Json 201 (VDict [("id", VStr fresh)])))
    (fun e =>
       match e with
       | KeyError _ | ValueError _ =>
           raise (HTTPException 400 (Msg (str_exn e)))
       | _ => raise e
       end).

(** Lines 83-88 of [list_students]: the query built from the parameters. *)
Definition list_query (country : option string) (age : option Z) : query :=
  let query := [] in
  let query :=
    match country with
    | Some c =>
        if truthy (VStr c)
        then (query ++ [(["address"; "country"], CEq (VStr c))])%list
        else query
    | None => query
    end in
  match age with
  | Some a => (query ++ [(["age"], CGte a)])%list
  | None => query
  end.

(** The projection of one listed document. *)
Definition list_item (student : document) : result pyval :=
  n <- dict_getitem student "name" ;;
  a <- dict_getitem student "age" ;;
  ok (VDict [("name", n); ("age", a)]).

(** [list_students] *)
Definition list_students (country : option string) (age : option Z)
  : M response :=
  students <~ db_find (list_query country age) 1000 ;;
  data <~ lift (map_result list_item students) ;;
  ret (Json 200 (VDict [("data", VList data)])).

(** [fetch_student].  The document found carries its [_id] apart, so
    [del student["_id"]] has nothing left to do. *)
Definition fetch_student (id : string) : M response :=
  i <~ lift (ObjectId id) ;;
  student <~ db_find_one i ;;
  match student with
  | None => raise not_found
  | Some student => ret (Json 200 (VDict (dict_set student "id" (VStr i))))
  end.

Definition ALLOWED_TOP_LEVEL_FIELDS : list string := ["name"; "age"; "address"].
Definition ALLOWED_ADDRESS_FIELDS : list string := ["city"; "country"].

(** Lines 197-202 of [update_student]: the body of the first loop. *)
Definition check_top (key : string) : M unit :=
  if negb (str_in key ALLOWED_TOP_LEVEL_FIELDS)
  then raise (HTTPException 400 (InvalidField key))
  else ret tt.

(** Lines 206-211 of [update_student]: the body of the second loop. *)
Definition check_address (key : pyval) : M unit :=
  known <~ lift (in_str_set key ALLOWED_ADDRESS_FIELDS) ;;
  if negb known
  then raise (HTTPException 400 (InvalidAddressField key))
  else ret tt.

(** Lines 196-211 of [update_student]: the checks on the keys. *)
Definition validate_update (student_update : dict) : M unit :=
  _ <~ for_ (map fst student_update) check_top ;;
  if dict_has student_update "address" then
    a <~ lift (dict_getitem student_update "address") ;;
    keys <~ lift (py_iter a) ;;
    for_ keys check_address
  else ret tt.

(** Lines 219-237 of [update_student]: [update_data], from the document
    found and the request body. *)
Definition merge_update (student : document) (student_update : dict)
  : result dict :=
  let update_data := [] in
  update_data <-
    (if dict_has student_update "name"
     then v <- dict_getitem student_update "name" ;;
          ok (dict_set update_data "name" v)
     else ok update_data) ;;
  update_data <-
    (if dict_has student_update "age"
     then v <- dict_getitem student_update "age" ;;
          ok (dict_set update_data "age" v)
     else ok update_data) ;;
  if dict_has student_update "address" then
    addr <- py_copy (match dict_get student "address" with
                     | Some a => a
                     | None => VDict []
                     end) ;;
    upd <- dict_getitem student_update "address" ;;
    has_city <- py_contains "city" upd ;;
    addr <-
      (if has_city
       then v <- py_getitem upd "city" ;; py_setitem addr "city" v
       else ok addr) ;;
    has_country <- py_contains "country" upd ;;
    addr <-
      (if has_country
       then v <- py_getitem upd "country" ;; py_setitem addr "country" v
       else ok addr) ;;
    ok (dict_set update_data "address" addr)
  else ok update_data.

(** [update_student] *)
Definition update_student (id : string) (student_update : dict)
  : M response :=
  _ <~ validate_update student_update ;;
  i <~ lift (ObjectId id) ;;
  student <~ db_find_one i ;;
  match student with
  | None => raise not_found
  | Some student =>
      update_data <~ lift (merge_update student student_update) ;;
      modified_count <~ db_update_one i update_data ;;
      if modified_count =? 0 then raise not_found
      else ret (Response 204)
  end.

(** [delete_student] *)
Definition delete_student (id : string) : M response :=
  i <~ lift (ObjectId id) ;;
  deleted_count <~ db_delete_one i ;;
  if deleted_count =? 0 then raise not_found
  else ret (Json 200 (VDict [])).

End Routes.
Export Routes.

(** * Vocabulary of the properties *)

(** What the constructor checks, as a predicate on the finished value. *)
Definition valid_address (a : Address) : bool :=
  truthy (city a) && truthy (country a).

Definition valid_student (s : Student) : bool :=
  truthy (name s) && is_str (name s)
  && is_int (age s) && negb (int_negative (age s))
  && valid_address (address s).

(** A handler step that neither reads nor writes the collection. *)
Definition stateless {A} (m : M A) : Prop :=
  forall c, m c = (fst (m []), c).

(** The outcome of the key checks; they do not look at the collection. *)
Definition key_checks (body : dict) : result unit :=
  fst (validate_update body []).

(** A 400-class response. *)
Definition client_error (r : result response) : Prop :=
  exists status d, 400 <= status < 500 /\ r = throw (HTTPException status d).

(** A student record as the data model describes it, and the document
    create_student stores for it. *)
Record row : Type :=
  mkRow { r_name : string; r_age : Z; r_city : string; r_country : string }.

Definition doc_of_row (r : row) : document :=
  Student_to_dict
    (mkStudent (VStr (r_name r)) (VInt (r_age r))
               (mkAddress (VStr (r_city r)) (VStr (r_country r)))).

Definition stored (rows : list (oid * row)) : collection :=
  map (fun ir => (fst ir, doc_of_row (snd ir))) rows.

Definition projection (r : row) : pyval :=
  VDict [("name", VStr (r_name r)); ("age", VInt (r_age r))].

Definition listing (rs : list row) : response :=
  Json 200 (VDict [("data", VList (map projection rs))]).

Definition in_country (country : string) (r : row) : bool :=
  String.eqb (r_country r) country.

Definition at_least (age : Z) (r : row) : bool := age <=? r_age r.

(** The 24 hexadecimal digits of a number, for collections of many
    records. *)
Definition hex_digit (n : N) : ascii :=
  if (n <? 10)%N then ascii_of_N (48 + n) else ascii_of_N (87 + n).

Fixpoint hex (digits : nat) (n : N) : string :=
  match digits with
  | O => EmptyString
  | S k => hex k (n / 16) ++ String (hex_digit (n mod 16)) EmptyString
  end.

Definition crowd (n : nat) : list (oid * row) :=
  map (fun k => (hex 24 (N.of_nat k), mkRow "Ann" 25 "Pune" "IN")) (seq 0 n).

(** The invariants of the data model on a stored document: the name is a
    non-empty string, the age an integer that is not negative, the address
    present with a non-empty city and country. *)
Definition valid_document (d : document) : bool :=
  match dict_get d "name", dict_get d "age", dict_get d "address" with
  | Some n, Some a, Some (VDict addr) =>
      is_str n && truthy n
      && is_int a && negb (int_negative a)
      && truthy (dict_get_default addr "city")
      && truthy (dict_get_default addr "country")
  | _, _, _ => false
  end.

Definition valid_collection (c : collection) : bool :=
  forallb valid_document (map snd c).

(** The shape of the documents create_student stores: name, age and an
    address of city and country, in this order, whatever the values. *)
Definition shaped (d : document) : Prop :=
  exists n a ci k,
    d = [("name", n); ("age", a);
         ("address", VDict [("city", ci); ("country", k)])].

(** One entry of an update, when the body gives the field. *)
Definition field (k : string) (v : option pyval) : dict :=
  match v with
  | Some x => [(k, x)]
  | None => []
  end.

(** The response to a fetch of a document found under an identifier. *)
Definition fetched (i : oid) (d : document) : response :=
  Json 200 (VDict (dict_set d "id" (VStr i))).

(** Lines 231-237 of update_student on their own: the address written,
    from the stored address and the address of the body. *)
Definition stored_address (student : document) : pyval :=
  match dict_get student "address" with
  | Some a => a
  | None => VDict []
  end.

Definition merged_address (stored upd : pyval) : result pyval :=
  addr <- py_copy stored ;;
  has_city <- py_contains "city" upd ;;
  addr <-
    (if has_city
     then v <- py_getitem upd "city" ;; py_setitem addr "city" v
     else ok addr) ;;
  has_country <- py_contains "country" upd ;;
  if has_country
  then v <- py_getitem upd "country" ;; py_setitem addr "country" v
  else ok addr.

(** A value a loop cannot iterate over. *)
Definition scalar (v : pyval) : bool :=
  match v with
  | VNone | VBool _ | VInt _ | VFloat _ => true
  | _ => false
  end.

(** The induction principle of values, through lists and dictionaries. *)
Section PyvalInd.
Variable P : pyval -> Prop.
Hypothesis HNone : P VNone.
Hypothesis HBool : forall b, P (VBool b).
Hypothesis HInt : forall z, P (VInt z).
Hypothesis HFloat : forall bits, P (VFloat bits).
Hypothesis HStr : forall s, P (VStr s).
Hypothesis HList : forall l, Forall P l -> P (VList l).
Hypothesis HDict :
  forall d, Forall (fun kv => P (snd kv)) d -> P (VDict d).

Fixpoint pyval_nested_ind (v : pyval) : P v :=
  match v with
  | VNone => HNone
  | VBool b => HBool b
  | VInt z => HInt z
  | VFloat bits => HFloat bits
  | VStr s => HStr s
  | VList l =>
      HList l
        ((fix go (l : list pyval) : Forall P l :=
            match l with
            | [] => Forall_nil _
            | x :: l' => Forall_cons _ (pyval_nested_ind x) (go l')
            end) l)
  | VDict d =>
      HDict d
        ((fix go (d : list (string * pyval))
            : Forall (fun kv => P (snd kv)) d :=
            match d with
            | [] => Forall_nil _
            | kv :: d' => Forall_cons _ (pyval_nested_ind (snd kv)) (go d')
            end) d)
  end.
End PyvalInd.

(** * Properties *)

(** ** Structural equality decides equality *)

Lemma pyval_eqb_eq (a b : pyval) : pyval_eqb a b = true <-> a = b.
Proof.
  revert b. induction a using pyval_nested_ind; intros w.
  - destruct w; simpl; split; congruence.
  - destruct w; simpl; try (split; congruence).
    rewrite Bool.eqb_true_iff. split; congruence.
  - destruct w; simpl; try (split; congruence).
    rewrite Z.eqb_eq. split; congruence.
  - destruct w; simpl; try (split; congruence).
    rewrite Z.eqb_eq. split; congruence.
  - destruct w; simpl; try (split; congruence).
    rewrite String.eqb_eq. split; congruence.
  - destruct w as [| | | | |l'|]; simpl; try (split; congruence).
    revert l'. induction H as [|x l Hx Hl IH]; intros [|y l'];
      try (split; congruence).
    rewrite andb_true_iff, Hx. specialize (IH l'). rewrite IH.
    split; [intros [-> E]; congruence | intros E; split; congruence].
  - destruct w as [| | | | | |d']; simpl; try (split; congruence).
    revert d'. induction H as [|[k x] d Hx Hd IH]; intros [|[k' y] d'];
      try (split; congruence).
    simpl in Hx. rewrite !andb_true_iff, String.eqb_eq, Hx.
    specialize (IH d'). rewrite IH.
    split; [intros [[-> ->] E]; congruence
           | intros E; repeat split; congruence].
Qed.

Lemma dict_eqb_eq (x y : dict) : dict_eqb x y = true <-> x = y.
Proof.
  unfold dict_eqb. rewrite pyval_eqb_eq. split; congruence.
Qed.

Lemma dict_eqb_refl (x : dict) : dict_eqb x x = true.
Proof. now apply dict_eqb_eq. Qed.

(** ** models.py *)

Lemma Student_init_valid (n a addr : pyval) (s : Student) :
  Student_init n a addr = ok s -> valid_student s = true.
Proof.
  unfold Student_init, valid_student, valid_address, Address_init.
  destruct (truthy n) eqn:En; simpl; [|discriminate].
  destruct (is_str n) eqn:Es; simpl; [|discriminate].
  destruct (is_int a) eqn:Ei; simpl; [|discriminate].
  destruct (int_negative a) eqn:Eneg; simpl; [discriminate|].
  destruct addr; try discriminate.
  destruct (truthy (dict_get_default d "city")) eqn:Ec; simpl; [|discriminate].
  destruct (truthy (dict_get_default d "country")) eqn:Ek; simpl;
    [|discriminate].
  intros E. injection E as <-. simpl. now rewrite En, Es, Ei, Eneg, Ec, Ek.
Qed.

Lemma Student_init_of_valid (s : Student) :
  valid_student s = true ->
  Student_init (name s) (age s) (VDict (Address_to_dict (address s))) = ok s.
Proof.
  unfold valid_student, valid_address, Student_init, Address_init.
  rewrite !andb_true_iff, negb_true_iff.
  intros [[[[En Es] Ei] Eneg] [Ec Ek]].
  rewrite En, Es, Ei, Eneg. simpl.
  unfold dict_get_default. simpl. rewrite Ec, Ek. simpl.
  now destruct s as [n a [c k]].
Qed.

(** C9: for every valid Student [s] (one the constructor has produced),
    [from_dict(to_dict(s))] is a Student with the same name, age, city and
    country. *)
Theorem from_dict_to_dict_roundtrip (n a addr : pyval) (s : Student) :
  Student_init n a addr = ok s ->
  Student_from_dict (Student_to_dict s) = ok s.
Proof.
  intros H. apply Student_init_valid in H.
  unfold Student_from_dict, Student_to_dict. simpl.
  now apply Student_init_of_valid.
Qed.

Lemma from_dict_to_dict_roundtrip_witness :
  Student_from_dict
    (Student_to_dict
       (mkStudent (VStr "Ann") (VInt 5) (mkAddress (VStr "A") (VStr "B"))))
  = ok (mkStudent (VStr "Ann") (VInt 5) (mkAddress (VStr "A") (VStr "B"))).
Proof.
  apply (from_dict_to_dict_roundtrip
           (VStr "Ann") (VInt 5)
           (VDict [("city", VStr "A"); ("country", VStr "B")])).
  reflexivity.
Defined.

Lemma Student_from_dict_raises (data : dict) (e : exn) :
  Student_from_dict data = throw e ->
  (exists k, e = KeyError k) \/ (exists m, e = ValueError m).
Proof.
  unfold Student_from_dict, dict_getitem, Student_init, Address_init.
  destruct (dict_get data "name") as [n|]; simpl;
    [|intros E; injection E as <-; eauto].
  destruct (dict_get data "age") as [a|]; simpl;
    [|intros E; injection E as <-; eauto].
  destruct (dict_get data "address") as [addr|]; simpl;
    [|intros E; injection E as <-; eauto].
  destruct (negb (truthy n) || negb (is_str n));
    [intros E; injection E as <-; eauto|].
  destruct (negb (is_int a) || int_negative a);
    [intros E; injection E as <-; eauto|].
  destruct addr; try (intros E; injection E as <-; eauto).
  destruct (negb (truthy (dict_get_default d "city"))
            || negb (truthy (dict_get_default d "country")));
    simpl; [intros E; injection E as <-; eauto | discriminate].
Qed.

(** C6: the constructor fails with a ValueError on an empty name, on a
    negative age and on an empty city, and succeeds on a non-empty name, a
    non-negative integer age and a non-empty city and country; when the
    construction in create_student fails (its three lookups and the
    constructor call are those of from_dict), the handler raises a 400 and
    the collection is left as it was: nothing is inserted. *)
Theorem construct_validation_and_create_failure :
  (forall a addr,
      Student_init (VStr "") a addr
      = throw (ValueError "Name must be a non-empty string"))
  /\ (forall n z addr,
         z < 0 -> exists m, Student_init n (VInt z) addr = throw (ValueError m))
  /\ (forall n a d,
         dict_get d "city" = Some (VStr "") ->
         exists m, Student_init n a (VDict d) = throw (ValueError m))
  /\ (forall n z c k,
         n <> "" -> 0 <= z -> c <> "" -> k <> "" ->
         Student_init (VStr n) (VInt z)
                      (VDict [("city", VStr c); ("country", VStr k)])
         = ok (mkStudent (VStr n) (VInt z) (mkAddress (VStr c) (VStr k))))
  /\ (forall fresh data c e,
         Student_from_dict data = throw e ->
         create_student fresh data c
         = (throw (HTTPException 400 (Msg (str_exn e))), c)).
Proof.
  split; [reflexivity|]. split; [|split; [|split]].
  - intros n z addr Hz. unfold Student_init.
    destruct (negb (truthy n) || negb (is_str n)); [eauto|].
    simpl. apply Z.ltb_lt in Hz. rewrite Hz. eauto.
  - intros n a d Hc. unfold Student_init, Address_init, dict_get_default.
    rewrite Hc. simpl.
    destruct (negb (truthy n) || negb (is_str n)); [eauto|].
    destruct (negb (is_int a) || int_negative a); eauto.
  - intros n z c k Hn Hz Hc Hk. unfold Student_init, Address_init. simpl.
    apply String.eqb_neq in Hn, Hc, Hk. rewrite Hn, Hc, Hk. simpl.
    destruct (z <? 0) eqn:E; [apply Z.ltb_lt in E; lia | reflexivity].
  - intros fresh data c e H.
    unfold create_student, try_except, bind, lift.
    unfold Student_from_dict in H. rewrite H. unfold throw.
    destruct (Student_from_dict_raises data e H) as [[k ->]|[m ->]];
      reflexivity.
Qed.

Lemma construct_validation_and_create_failure_witness :
  (exists m, Student_init (VStr "Ann") (VInt (-1)) (VDict [])
             = throw (ValueError m))
  /\ (exists m, Student_init (VStr "Ann") (VInt 5)
                  (VDict [("city", VStr ""); ("country", VStr "B")])
                = throw (ValueError m))
  /\ Student_init (VStr "Ann") (VInt 5)
       (VDict [("city", VStr "A"); ("country", VStr "B")])
     = ok (mkStudent (VStr "Ann") (VInt 5) (mkAddress (VStr "A") (VStr "B")))
  /\ create_student "0123456789abcdef01234567" [("name", VStr "Ann")] []
     = (throw (HTTPException 400 (Msg "'age'")), []).
Proof.
  destruct construct_validation_and_create_failure
    as (_ & Hage & Hcity & Hok & Hcreate).
  split; [apply Hage; lia|].
  split; [apply Hcity; reflexivity|].
  split; [apply Hok; [discriminate | lia | discriminate | discriminate]|].
  apply (Hcreate _ _ _ (KeyError "age")). reflexivity.
Defined.

(** ** The collection *)

Lemma update_one_absent (c : collection) (i : oid) (upd : dict) :
  find_one c i = None -> update_one c i upd = (c, 0).
Proof.
  induction c as [|[j d] c IH]; simpl; [reflexivity|].
  destruct (String.eqb j i); [discriminate|].
  intros H. now rewrite (IH H).
Qed.

Lemma update_one_same (c : collection) (i : oid) (upd : dict) (d : document) :
  find_one c i = Some d -> apply_set d upd = d -> update_one c i upd = (c, 0).
Proof.
  induction c as [|[j d'] c IH]; simpl; [discriminate|].
  destruct (String.eqb j i).
  - intros E Hs. injection E as ->. now rewrite Hs, dict_eqb_refl.
  - intros E Hs. now rewrite (IH E Hs).
Qed.

Lemma update_one_changed (c : collection) (i : oid) (upd : dict)
      (d : document) :
  find_one c i = Some d -> apply_set d upd <> d ->
  snd (update_one c i upd) = 1
  /\ find_one (fst (update_one c i upd)) i = Some (apply_set d upd).
Proof.
  induction c as [|[j d'] c IH]; simpl; [discriminate|].
  destruct (String.eqb j i) eqn:Eji.
  - intros E Hs. injection E as ->.
    destruct (dict_eqb (apply_set d upd) d) eqn:Eq.
    + apply dict_eqb_eq in Eq. contradiction.
    + simpl. now rewrite Eji.
  - intros E Hs. destruct (IH E Hs) as [Hn Hf].
    destruct (update_one c i upd) as [c'' n]. simpl in *. now rewrite Eji.
Qed.

Lemma update_one_count (c : collection) (i : oid) (upd : dict) (d : document) :
  find_one c i = Some d ->
  (snd (update_one c i upd) = 0 <-> apply_set d upd = d).
Proof.
  intros Hf. split.
  - intros Hn. destruct (dict_eqb (apply_set d upd) d) eqn:Eq.
    + now apply dict_eqb_eq.
    + assert (Hne : apply_set d upd <> d).
      { intros E. apply dict_eqb_eq in E. congruence. }
      destruct (update_one_changed c i upd d Hf Hne) as [H1 _]. lia.
  - intros Hs. now rewrite (update_one_same c i upd d Hf Hs).
Qed.

Lemma delete_one_absent (c : collection) (i : oid) :
  find_one c i = None -> delete_one c i = (c, 0).
Proof.
  induction c as [|[j d] c IH]; simpl; [reflexivity|].
  destruct (String.eqb j i); [discriminate|].
  intros H. now rewrite (IH H).
Qed.

Lemma find_one_not_in (c : collection) (i : oid) :
  ~ In i (map fst c) -> find_one c i = None.
Proof.
  induction c as [|[j d] c IH]; simpl; [reflexivity|].
  intros H. destruct (String.eqb j i) eqn:E.
  - apply String.eqb_eq in E. tauto.
  - apply IH. tauto.
Qed.

Lemma delete_one_present (c : collection) (i : oid) (d : document) :
  find_one c i = Some d -> NoDup (map fst c) ->
  snd (delete_one c i) = 1 /\ find_one (fst (delete_one c i)) i = None.
Proof.
  induction c as [|[j d'] c IH]; simpl; [discriminate|].
  intros Hf Hnd. inversion Hnd as [|? ? Hnin Hnd']; subst.
  destruct (String.eqb j i) eqn:E.
  - apply String.eqb_eq in E. subst j. simpl.
    split; [reflexivity | now apply find_one_not_in].
  - destruct (IH Hf Hnd') as [Hn Hg].
    destruct (delete_one c i) as [c'' n]. simpl in *. now rewrite E.
Qed.

(** ** routes.py: the key checks of update_student *)

Lemma stateless_ret {A} (a : A) : stateless (ret a).
Proof. now intros c. Qed.

Lemma stateless_raise {A} (e : exn) : stateless (@raise A e).
Proof. now intros c. Qed.

Lemma stateless_lift {A} (r : result A) : stateless (lift r).
Proof. now intros c. Qed.

Lemma stateless_bind {A B} (m : M A) (k : A -> M B) :
  stateless m -> (forall a, stateless (k a)) -> stateless (bind m k).
Proof.
  intros Hm Hk c. unfold bind. rewrite (Hm c).
  pose proof (Hm []) as H0. destruct (m []) as [[e|a] c0]; simpl in *.
  - reflexivity.
  - injection H0 as ->. apply Hk.
Qed.

Lemma stateless_for {A} (l : list A) (body : A -> M unit) :
  (forall x, stateless (body x)) -> stateless (for_ l body).
Proof.
  intros Hb. induction l as [|x l IH]; simpl.
  - apply stateless_ret.
  - apply stateless_bind; [apply Hb | intros _; exact IH].
Qed.

Create HintDb stateless.
#[local] Hint Resolve stateless_ret stateless_raise stateless_lift : stateless.

Lemma stateless_check_top (key : string) : stateless (check_top key).
Proof. unfold check_top. destruct (negb _); auto with stateless. Qed.

Lemma stateless_check_address (key : pyval) : stateless (check_address key).
Proof.
  unfold check_address. apply stateless_bind; [auto with stateless|].
  intros known. destruct (negb known); auto with stateless.
Qed.

Lemma stateless_validate_update (body : dict) :
  stateless (validate_update body).
Proof.
  unfold validate_update. apply stateless_bind.
  - apply stateless_for, stateless_check_top.
  - intros _. destruct (dict_has body "address"); [|auto with stateless].
    apply stateless_bind; [auto with stateless|]. intros a.
    apply stateless_bind; [auto with stateless|]. intros keys.
    apply stateless_for, stateless_check_address.
Qed.

(** The first loop stops at the first key that is not allowed. *)
Lemma top_loop (keys : list string) (c : collection) :
  for_ keys check_top c
  = (match find (fun k => negb (str_in k ALLOWED_TOP_LEVEL_FIELDS)) keys with
     | Some k => throw (HTTPException 400 (InvalidField k))
     | None => ok tt
     end, c).
Proof.
  induction keys as [|k keys IH]; [reflexivity|].
  cbn [for_ find]. unfold bind, check_top at 1.
  destruct (negb (str_in k ALLOWED_TOP_LEVEL_FIELDS));
    [reflexivity | exact IH].
Qed.

(** So does the second, over the keys of an address that is a dictionary. *)
Lemma address_loop (a : dict) (c : collection) :
  for_ (map (fun kv => VStr (fst kv)) a) check_address c
  = (match find (fun k => negb (str_in k ALLOWED_ADDRESS_FIELDS))
                (map fst a) with
     | Some k => throw (HTTPException 400 (InvalidAddressField (VStr k)))
     | None => ok tt
     end, c).
Proof.
  induction a as [|[k v] a IH]; [reflexivity|].
  cbn [for_ find map fst]. unfold bind at 1, check_address at 1.
  unfold bind, lift. cbn [in_str_set ok].
  destruct (negb (str_in k ALLOWED_ADDRESS_FIELDS));
    [reflexivity | exact IH].
Qed.

Lemma find_bad_key (allowed : list string) (keys : list string) (k : string) :
  In k keys -> str_in k allowed = false ->
  exists k', find (fun k => negb (str_in k allowed)) keys = Some k'.
Proof.
  intros Hin Hk.
  destruct (find (fun k => negb (str_in k allowed)) keys) as [k'|] eqn:E;
    [eauto|].
  apply (find_none _ _ E) in Hin. rewrite Hk in Hin. discriminate.
Qed.

(** [update_student], one step at a time. *)
Lemma update_student_steps (id : string) (body : dict) (c : collection) :
  update_student id body c =
  match key_checks body with
  | inl e => (inl e, c)
  | inr _ =>
      match ObjectId id with
      | inl e => (inl e, c)
      | inr i =>
          match find_one c i with
          | None => (throw not_found, c)
          | Some student =>
              match merge_update student body with
              | inl e => (inl e, c)
              | inr upd =>
                  match bson_error (VDict upd) with
                  | Some e => (throw e, c)
                  | None =>
                      (if snd (update_one c i upd) =? 0
                       then throw not_found else ok (Response 204),
                       fst (update_one c i upd))
                  end
              end
          end
      end
  end.
Proof.
  unfold update_student, bind at 1, key_checks.
  rewrite (stateless_validate_update body c).
  destruct (fst (validate_update body [])) as [e|[]]; [reflexivity|].
  unfold bind, lift, db_find_one, db_update_one.
  destruct (ObjectId id) as [e|i]; [reflexivity|]. unfold ok.
  destruct (find_one c i) as [student|]; [|reflexivity].
  destruct (merge_update student body) as [e|upd]; [reflexivity|].
  destruct (bson_error (VDict upd)); [reflexivity|].
  destruct (update_one c i upd) as [c' n]. cbn [fst snd].
  destruct (n =? 0); reflexivity.
Qed.

(** C5: an update whose body has a top-level key outside name, age and
    address, or whose address is a mapping with a key outside city and
    country, raises a 400; the response depends neither on the identifier
    nor on the collection (nothing has been loaded yet), and the collection
    is left as it was. *)
Theorem update_rejects_unknown_fields (body : dict) :
  (exists k, In k (map fst body)
             /\ str_in k ALLOWED_TOP_LEVEL_FIELDS = false)
  \/ (exists a k, dict_get body "address" = Some (VDict a)
                  /\ In k (map fst a)
                  /\ str_in k ALLOWED_ADDRESS_FIELDS = false) ->
  exists d, forall id c,
    update_student id body c = (throw (HTTPException 400 d), c).
Proof.
  intros H.
  assert (Hv : exists d, key_checks body = throw (HTTPException 400 d)).
  { unfold key_checks, validate_update, bind at 1. rewrite top_loop.
    destruct (find (fun k => negb (str_in k ALLOWED_TOP_LEVEL_FIELDS))
                   (map fst body)) as [k'|] eqn:Etop; [simpl; eauto|].
    destruct H as [(k & Hin & Hk)|(a & k & Ha & Hin & Hk)].
    - destruct (find_bad_key _ _ _ Hin Hk) as [k' E]. congruence.
    - unfold ok, dict_has, dict_getitem, bind, lift. rewrite Ha. simpl.
      rewrite address_loop.
      destruct (find_bad_key _ _ _ Hin Hk) as [k' E]. rewrite E. simpl. eauto. }
  destruct Hv as [d Hd]. exists d. intros id c.
  rewrite update_student_steps, Hd. reflexivity.
Qed.

Lemma update_rejects_unknown_fields_witness :
  exists d, forall id c,
    update_student id [("nickname", VStr "x")] c
    = (throw (HTTPException 400 d), c).
Proof.
  apply update_rejects_unknown_fields.
  left. exists "nickname". split; [simpl; auto | reflexivity].
Defined.

(** ** routes.py: identifiers stay distinct *)

Lemma find_one_absent_not_in (c : collection) (i : oid) :
  find_one c i = None -> ~ In i (map fst c).
Proof.
  induction c as [|[j d] c IH]; simpl; [tauto|].
  destruct (String.eqb j i) eqn:E; [discriminate|].
  apply String.eqb_neq in E. intros H [Hj|Hin]; [congruence | now apply IH].
Qed.

Lemma update_one_ids (c : collection) (i : oid) (upd : dict) :
  map fst (fst (update_one c i upd)) = map fst c.
Proof.
  induction c as [|[j d] c IH]; simpl; [reflexivity|].
  destruct (String.eqb j i).
  - now destruct (dict_eqb (apply_set d upd) d).
  - destruct (update_one c i upd) as [c'' n]. simpl in *. now rewrite IH.
Qed.

Lemma delete_one_ids (c : collection) (i j : oid) :
  In j (map fst (fst (delete_one c i))) -> In j (map fst c).
Proof.
  induction c as [|[k d] c IH]; simpl; [tauto|].
  destruct (String.eqb k i); simpl; [tauto|].
  destruct (delete_one c i) as [c'' n]. simpl in *. tauto.
Qed.

Lemma delete_one_unique (c : collection) (i : oid) :
  NoDup (map fst c) -> NoDup (map fst (fst (delete_one c i))).
Proof.
  induction c as [|[k d] c IH]; simpl; [constructor|].
  intros H. inversion H as [|? ? Hnin Hnd]; subst.
  destruct (String.eqb k i); simpl; [exact Hnd|].
  pose proof (delete_one_ids c i k) as Hk.
  destruct (delete_one c i) as [c'' n]. simpl in *.
  constructor; [tauto | now apply IH].
Qed.

Lemma insert_one_unique (c c' : collection) (fresh : oid) (d : document) :
  insert_one c fresh d = ok c' ->
  NoDup (map fst c) -> NoDup (map fst c').
Proof.
  unfold insert_one. destruct (find_one c fresh) eqn:E; [discriminate|].
  intros H Hnd. injection H as <-. rewrite map_app. simpl.
  apply find_one_absent_not_in in E.
  apply NoDup_app; [exact Hnd | repeat constructor; simpl; tauto |].
  intros a Ha [<-|[]]. contradiction.
Qed.

(** The handlers keep the identifiers of the collection distinct. *)
Lemma handlers_keep_unique_ids (c : collection) :
  NoDup (map fst c) ->
  (forall fresh data,
      NoDup (map fst (snd (create_student fresh data c))))
  /\ (forall id body, NoDup (map fst (snd (update_student id body c))))
  /\ (forall id, NoDup (map fst (snd (delete_student id c)))).
Proof.
  intros Hnd. repeat split.
  - intros fresh data. unfold create_student, try_except, bind, lift.
    destruct (n <- dict_getitem data "name" ;;
              a <- dict_getitem data "age" ;;
              addr <- dict_getitem data "address" ;;
              Student_init n a addr) as [e|s].
    + destruct e; exact Hnd.
    + unfold db_insert_one.
      destruct (bson_error (VDict (Student_to_dict s))) as [e|];
        [destruct e; exact Hnd|].
      destruct (insert_one c fresh (Student_to_dict s)) as [e|c'] eqn:E.
      * destruct e; exact Hnd.
      * simpl. now apply (insert_one_unique c c' fresh _ E).
  - intros id body. rewrite update_student_steps.
    destruct (key_checks body); [exact Hnd|].
    destruct (ObjectId id) as [e|i]; [exact Hnd|].
    destruct (find_one c i) as [student|]; [|exact Hnd].
    destruct (merge_update student body) as [e|upd]; [exact Hnd|].
    destruct (bson_error (VDict upd)); [exact Hnd|].
    cbn [snd]. now rewrite update_one_ids.
  - intros id. unfold delete_student, bind, lift, db_delete_one.
    destruct (ObjectId id) as [e|i]; [exact Hnd|].
    pose proof (delete_one_unique c i Hnd) as H.
    destruct (delete_one c i) as [c' n]. simpl in *.
    now destruct (n =? 0).
Qed.

(** ** routes.py: identifiers *)

Lemma ObjectId_invalid (id : string) :
  is_valid id = false -> ObjectId id = throw (InvalidId id).
Proof.
  unfold is_valid, ObjectId.
  destruct (Nat.eqb (String.length id) 24); [|reflexivity].
  destruct (fromhex id); [discriminate | reflexivity].
Qed.

(** White space around the bytes is accepted: such an identifier has fewer
    than twelve bytes and is not one the driver generates, so a fetch of it
    finds nothing. *)
Example ObjectId_with_white_space :
  ObjectId "0123456789abcdef012345  " = ok "0123456789abcdef012345"
  /\ fetch_student "0123456789abcdef012345  "
       [("0123456789abcdef01234567", [("name", VStr "Ann")])]
     = (throw (HTTPException 404 (Msg "Student not found")),
        [("0123456789abcdef01234567", [("name", VStr "Ann")])]).
Proof. split; reflexivity. Qed.

(** C2, as stated, fails: on the malformed identifier xyz the three
    handlers end with the uncaught InvalidId of the ObjectId constructor,
    not with a 400-class response. *)
Lemma malformed_id_is_not_client_error :
  is_valid "xyz" = false
  /\ fetch_student "xyz" [] = (throw (InvalidId "xyz"), [])
  /\ update_student "xyz" [] [] = (throw (InvalidId "xyz"), [])
  /\ delete_student "xyz" [] = (throw (InvalidId "xyz"), [])
  /\ ~ client_error (fst (fetch_student "xyz" []))
  /\ ~ client_error (fst (update_student "xyz" [] []))
  /\ ~ client_error (fst (delete_student "xyz" [])).
Proof.
  repeat split; try reflexivity;
    intros (status & d & _ & H); discriminate H.
Qed.

(** C2, amended: on a malformed identifier fetch_student and
    delete_student raise InvalidId, which no handler catches; so does
    update_student once the key checks have passed, and when they fail it
    raises their exception; in every case the collection is left as it
    was. *)
Theorem malformed_id_raises_invalid_id (id : string) (c : collection) :
  is_valid id = false ->
  fetch_student id c = (throw (InvalidId id), c)
  /\ delete_student id c = (throw (InvalidId id), c)
  /\ (forall body,
         key_checks body = ok tt ->
         update_student id body c = (throw (InvalidId id), c))
  /\ (forall body e,
         key_checks body = throw e ->
         update_student id body c = (throw e, c)).
Proof.
  intros H. repeat split.
  - unfold fetch_student, bind, lift. now rewrite (ObjectId_invalid id H).
  - unfold delete_student, bind, lift. now rewrite (ObjectId_invalid id H).
  - intros body Hb. rewrite update_student_steps, Hb.
    now rewrite (ObjectId_invalid id H).
  - intros body e Hb. now rewrite update_student_steps, Hb.
Qed.

Lemma malformed_id_raises_invalid_id_witness :
  fetch_student "xyz" [] = (throw (InvalidId "xyz"), [])
  /\ delete_student "xyz" [] = (throw (InvalidId "xyz"), [])
  /\ update_student "xyz" [("name", VStr "Ann")] []
     = (throw (InvalidId "xyz"), [])
  /\ update_student "xyz" [("nickname", VStr "x")] []
     = (throw (HTTPException 400 (InvalidField "nickname")), []).
Proof.
  destruct (malformed_id_raises_invalid_id "xyz" [] eq_refl)
    as (Hf & Hd & Hu & Hv).
  split; [exact Hf|]. split; [exact Hd|].
  split; [apply Hu; reflexivity | apply Hv; reflexivity].
Defined.

(** C8: for a well-formed identifier that matches no stored record,
    fetch_student and delete_student, and update_student on a body that
    passes its key checks (they run before the record is looked up), raise
    the 404 with detail "Student not found" and leave the collection as it
    was; a delete repeated on the same identifier raises that 404 and
    changes nothing. *)
Theorem absent_id_not_found (id : string) (i : oid) (c : collection) :
  ObjectId id = ok i ->
  find_one c i = None ->
  fetch_student id c
  = (throw (HTTPException 404 (Msg "Student not found")), c)
  /\ delete_student id c
     = (throw (HTTPException 404 (Msg "Student not found")), c)
  /\ (forall body,
         key_checks body = ok tt ->
         update_student id body c
         = (throw (HTTPException 404 (Msg "Student not found")), c))
  /\ (forall c0,
         NoDup (map fst c0) ->
         delete_student id (snd (delete_student id c0))
         = (throw (HTTPException 404 (Msg "Student not found")),
            snd (delete_student id c0))).
Proof.
  intros Hi Hf.
  assert (Hdel : forall c1, find_one c1 i = None ->
                            delete_student id c1 = (throw not_found, c1)).
  { intros c1 H1. unfold delete_student, bind, lift, db_delete_one.
    rewrite Hi. unfold ok. now rewrite (delete_one_absent c1 i H1). }
  repeat split.
  - unfold fetch_student, bind, lift, db_find_one. rewrite Hi. unfold ok.
    now rewrite Hf.
  - now apply Hdel.
  - intros body Hb. rewrite update_student_steps, Hb, Hi. unfold ok.
    now rewrite Hf.
  - intros c0 Hnd. apply Hdel.
    unfold delete_student, bind, lift, db_delete_one. rewrite Hi. unfold ok.
    destruct (find_one c0 i) as [d|] eqn:E.
    + destruct (delete_one_present c0 i d E Hnd) as [Hn Hg].
      destruct (delete_one c0 i) as [c1 n]. simpl in *. subst n. exact Hg.
    + rewrite (delete_one_absent c0 i E). exact E.
Qed.

Lemma absent_id_not_found_witness :
  fetch_student "0123456789ABCDEF01234567" []
  = (throw (HTTPException 404 (Msg "Student not found")), [])
  /\ update_student "0123456789ABCDEF01234567" [("name", VStr "Ann")] []
     = (throw (HTTPException 404 (Msg "Student not found")), [])
  /\ delete_student "0123456789ABCDEF01234567"
       (snd (delete_student "0123456789ABCDEF01234567"
               [("0123456789abcdef01234567", [("name", VStr "Ann")])]))
     = (throw (HTTPException 404 (Msg "Student not found")), []).
Proof.
  destruct (absent_id_not_found
              "0123456789ABCDEF01234567" "0123456789abcdef01234567" []
              eq_refl eq_refl) as (Hf & _ & Hu & Hd).
  split; [exact Hf|]. split; [apply Hu; reflexivity|].
  apply (Hd [("0123456789abcdef01234567", [("name", VStr "Ann")])]).
  simpl. repeat constructor. simpl. tauto.
Defined.

(** ** routes.py: the merge of update_student *)

(** C4: once the key checks have passed and the record is loaded, and
    the write returns its count, update_student raises the 404 exactly when
    the write reports no modification, and otherwise returns the empty 204
    response; the write reports no modification exactly when the merged
    document is the stored one, and then the collection is left as it
    was. *)
Theorem update_not_found_iff_unmodified
        (id : string) (i : oid) (body : dict) (c c' : collection)
        (student : document) (update_data : dict) (modified_count : Z) :
  key_checks body = ok tt ->
  ObjectId id = ok i ->
  find_one c i = Some student ->
  merge_update student body = ok update_data ->
  db_update_one i update_data c = (ok modified_count, c') ->
  update_student id body c
  = (if modified_count =? 0
     then throw (HTTPException 404 (Msg "Student not found"))
     else ok (Response 204),
     c')
  /\ (modified_count = 0 <-> apply_set student update_data = student)
  /\ (modified_count = 0 -> c' = c).
Proof.
  intros Hb Hi Hf Hm Hw. unfold db_update_one in Hw.
  destruct (bson_error (VDict update_data)) eqn:He; [discriminate|].
  assert (Hn : snd (update_one c i update_data) = modified_count
               /\ fst (update_one c i update_data) = c').
  { destruct (update_one c i update_data) as [c1 n].
    injection Hw as <- <-. now split. }
  destruct Hn as [<- <-]. split; [|split].
  - rewrite update_student_steps, Hb, Hi. unfold ok.
    rewrite Hf, Hm. unfold ok. cbv beta iota. now rewrite He.
  - now apply update_one_count.
  - intros Hn. apply (update_one_count c i update_data student Hf) in Hn.
    now rewrite (update_one_same c i update_data student Hf Hn).
Qed.

Lemma update_not_found_iff_unmodified_witness :
  update_student "0123456789abcdef01234567" []
    [("0123456789abcdef01234567", [("name", VStr "Ann")])]
  = (throw (HTTPException 404 (Msg "Student not found")),
     [("0123456789abcdef01234567", [("name", VStr "Ann")])]).
Proof.
  exact (proj1 (update_not_found_iff_unmodified
                  "0123456789abcdef01234567" "0123456789abcdef01234567" []
                  [("0123456789abcdef01234567", [("name", VStr "Ann")])]
                  [("0123456789abcdef01234567", [("name", VStr "Ann")])]
                  [("name", VStr "Ann")] [] 0
                  eq_refl eq_refl eq_refl eq_refl eq_refl)).
Defined.

Lemma dict_get_set_same {A} (d : list (string * A)) (k : string) (v : A) :
  dict_get (dict_set d k v) k = Some v.
Proof.
  induction d as [|[k' v'] d IH]; simpl.
  - now rewrite String.eqb_refl.
  - destruct (String.eqb k' k) eqn:E; simpl; now rewrite E.
Qed.

(** The address written by a body whose address gives only a city. *)
Lemma merge_update_city_only (student : document) (body : dict)
      (C K X : pyval) (update_data : dict) :
  dict_get student "address" = Some (VDict [("city", C); ("country", K)]) ->
  dict_get body "address" = Some (VDict [("city", X)]) ->
  merge_update student body = ok update_data ->
  dict_get (apply_set student update_data) "address"
  = Some (VDict [("city", X); ("country", K)]).
Proof.
  intros Hs Hb. unfold merge_update, dict_has, dict_getitem.
  rewrite Hs, Hb. simpl.
  destruct (dict_get body "name") as [n|];
    destruct (dict_get body "age") as [a|]; simpl;
    intros E; injection E as <-; simpl; apply dict_get_set_same.
Qed.

(** C1: when the stored address is {city: C, country: K} and the body of a
    successful update gives an address with only a city X, the stored
    address afterwards is {city: X, country: K}. *)
Theorem partial_address_update_keeps_country
        (id : string) (i : oid) (body : dict) (c c' : collection)
        (student : document) (C K X : pyval) (r : response) :
  ObjectId id = ok i ->
  find_one c i = Some student ->
  dict_get student "address" = Some (VDict [("city", C); ("country", K)]) ->
  dict_get body "address" = Some (VDict [("city", X)]) ->
  update_student id body c = (ok r, c') ->
  exists student',
    find_one c' i = Some student'
    /\ dict_get student' "address"
       = Some (VDict [("city", X); ("country", K)]).
Proof.
  intros Hi Hf Hs Hb Hu.
  rewrite update_student_steps, Hi in Hu. unfold ok in Hu.
  destruct (key_checks body) as [e|[]]; [discriminate|].
  rewrite Hf in Hu.
  destruct (merge_update student body) as [e|update_data] eqn:Hm;
    [discriminate|].
  destruct (bson_error (VDict update_data)); [discriminate|].
  destruct (snd (update_one c i update_data) =? 0) eqn:Hn; [discriminate|].
  injection Hu as _ <-.
  assert (Hne : apply_set student update_data <> student).
  { intros E. apply (update_one_count c i update_data student Hf) in E.
    rewrite E in Hn. discriminate. }
  destruct (update_one_changed c i update_data student Hf Hne) as [_ Hg].
  exists (apply_set student update_data). split; [exact Hg|].
  now apply (merge_update_city_only student body C K X).
Qed.

Lemma partial_address_update_keeps_country_witness :
  exists student',
    find_one
      [("0123456789abcdef01234567",
        [("name", VStr "Ann"); ("age", VInt 20);
         ("address", VDict [("city", VStr "Mumbai"); ("country", VStr "IN")])])]
      "0123456789abcdef01234567" = Some student'
    /\ dict_get student' "address"
       = Some (VDict [("city", VStr "Mumbai"); ("country", VStr "IN")]).
Proof.
  apply (partial_address_update_keeps_country
           "0123456789abcdef01234567" "0123456789abcdef01234567"
           [("address", VDict [("city", VStr "Mumbai")])]
           [("0123456789abcdef01234567",
             [("name", VStr "Ann"); ("age", VInt 20);
              ("address",
               VDict [("city", VStr "Pune"); ("country", VStr "IN")])])]
           [("0123456789abcdef01234567",
             [("name", VStr "Ann"); ("age", VInt 20);
              ("address",
               VDict [("city", VStr "Mumbai"); ("country", VStr "IN")])])]
           [("name", VStr "Ann"); ("age", VInt 20);
            ("address", VDict [("city", VStr "Pune"); ("country", VStr "IN")])]
           (VStr "Pune") (VStr "IN") (VStr "Mumbai") (Response 204));
    reflexivity.
Defined.

(** ** routes.py: list_students *)

Lemma filter_map_comm {A B} (f : B -> bool) (g : A -> B) (l : list A) :
  filter f (map g l) = map g (filter (fun x => f (g x)) l).
Proof.
  induction l as [|x l IH]; simpl; [reflexivity|].
  destruct (f (g x)); simpl; now rewrite IH.
Qed.

Lemma map_result_list_item (rs : list row) :
  map_result list_item (map doc_of_row rs) = ok (map projection rs).
Proof.
  induction rs as [|r rs IH]; [reflexivity|].
  cbn [map map_result]. rewrite IH. reflexivity.
Qed.

Lemma documents_stored (rows : list (oid * row)) :
  map snd (stored rows) = map doc_of_row (map snd rows).
Proof. unfold stored. now rewrite !map_map. Qed.

Lemma list_students_rows (country : option string) (age : option Z)
      (rows : list (oid * row)) (p : row -> bool) :
  query_error (list_query country age) = None ->
  (forall r, matches (list_query country age) (doc_of_row r) = p r) ->
  list_students country age (stored rows)
  = (ok (listing (firstn 1000 (filter p (map snd rows)))), stored rows).
Proof.
  intros Hq Hp.
  unfold list_students, bind, db_find, find_to_list, lift, ret.
  rewrite Hq, documents_stored, filter_map_comm, firstn_map.
  rewrite (filter_ext _ p Hp). unfold ok.
  rewrite map_result_list_item. reflexivity.
Qed.

Lemma truthy_nonempty (s : string) : s <> "" -> truthy (VStr s) = true.
Proof. intros H. simpl. apply String.eqb_neq in H. now rewrite H. Qed.

(** The driver encodes the query of list_students exactly when the age
    bound, if any, fits in 8 bytes. *)
Lemma list_query_encodes (country : option string) (age : option Z) :
  query_error (list_query country age)
  = match age with
    | Some a => if int64 a then None else Some OverflowError
    | None => None
    end.
Proof.
  unfold list_query.
  destruct country as [c|]; [destruct (truthy (VStr c))|];
    destruct age as [a|]; simpl; try reflexivity;
    destruct (int64 a); reflexivity.
Qed.

Lemma list_students_overflow (country : option string) (age : Z)
      (c : collection) :
  int64 age = false ->
  list_students country (Some age) c = (throw OverflowError, c).
Proof.
  intros H. unfold list_students, bind, db_find.
  now rewrite list_query_encodes, H.
Qed.

(** C7, as stated, fails: with 1001 stored records that all have country
    IN and age 25, List(country=IN, age=22) returns 1000 of them, not
    exactly the matching records. *)
Lemma list_students_filtered_is_capped :
  NoDup (map fst (stored (crowd 1001)))
  /\ forallb (fun r => in_country "IN" r && at_least 22 r)
             (map snd (crowd 1001)) = true
  /\ List.length (crowd 1001) = 1001%nat
  /\ exists data,
      list_students (Some "IN") (Some 22) (stored (crowd 1001))
      = (ok (Json 200 (VDict [("data", VList data)])), stored (crowd 1001))
      /\ List.length data = 1000%nat.
Proof.
  split; [|split; [|split]].
  - assert (H : forall l : list string,
               (fix nodup (l : list string) : bool :=
                  match l with
                  | [] => true
                  | x :: l' => negb (existsb (String.eqb x) l') && nodup l'
                  end) l = true -> NoDup l).
    { induction l as [|x l IH]; [constructor|].
      rewrite andb_true_iff, negb_true_iff. intros [Hx Hl].
      constructor; [|auto].
      intros Hin. assert (E : existsb (String.eqb x) l = true).
      { apply existsb_exists. exists x. split; [exact Hin|].
        apply String.eqb_refl. }
      congruence. }
    apply H. vm_compute. reflexivity.
  - vm_compute. reflexivity.
  - vm_compute. reflexivity.
  - eexists. split; [vm_compute; reflexivity|]. vm_compute. reflexivity.
Qed.

(** C7, amended: on a collection of student records, List with a
    non-empty country and an age bound that fits in 8 bytes returns the
    first 1000, in storage order, of the records whose country equals the
    filter and whose age is at least the bound; with one of the two, of the
    records that pass it; with none, of all records; every result is the
    {name, age} projection, without the address.  An age bound that does
    not fit in 8 bytes ends in the OverflowError of the driver. *)
Theorem list_students_filters (rows : list (oid * row)) :
  (forall country age,
      country <> "" -> int64 age = true ->
      list_students (Some country) (Some age) (stored rows)
      = (ok (listing
               (firstn 1000
                  (filter (fun r => in_country country r && at_least age r)
                          (map snd rows)))),
         stored rows))
  /\ (forall country,
         country <> "" ->
         list_students (Some country) None (stored rows)
         = (ok (listing
                  (firstn 1000 (filter (in_country country) (map snd rows)))),
            stored rows))
  /\ (forall age,
         int64 age = true ->
         list_students None (Some age) (stored rows)
         = (ok (listing
                  (firstn 1000 (filter (at_least age) (map snd rows)))),
            stored rows))
  /\ list_students None None (stored rows)
     = (ok (listing (firstn 1000 (map snd rows))), stored rows)
  /\ (forall country age,
         int64 age = false ->
         list_students country (Some age) (stored rows)
         = (throw OverflowError, stored rows)).
Proof.
  split; [|split; [|split; [|split]]].
  - intros country age Hc Ha. apply list_students_rows.
    { now rewrite list_query_encodes, Ha. }
    intros r. unfold list_query. rewrite (truthy_nonempty country Hc).
    unfold in_country, at_least. simpl. unfold cond_holds. simpl.
    now rewrite !orb_false_r, andb_true_r.
  - intros country Hc. apply list_students_rows.
    { now rewrite list_query_encodes. }
    intros r. unfold list_query. rewrite (truthy_nonempty country Hc).
    unfold in_country. simpl. unfold cond_holds. simpl.
    now rewrite orb_false_r, andb_true_r.
  - intros age Ha. apply list_students_rows.
    { now rewrite list_query_encodes, Ha. }
    intros r. unfold at_least. simpl. unfold cond_holds. simpl.
    now rewrite orb_false_r, andb_true_r.
  - rewrite (list_students_rows None None rows (fun _ => true)).
    + now rewrite filter_true.
    + reflexivity.
    + reflexivity.
  - intros country age Ha. now apply list_students_overflow.
Qed.

Lemma list_students_filters_witness :
  list_students (Some "IN") (Some 22)
    (stored [("0123456789abcdef0123456a", mkRow "A" 20 "Pune" "IN");
             ("0123456789abcdef0123456b", mkRow "B" 25 "Pune" "IN");
             ("0123456789abcdef0123456c", mkRow "C" 25 "NYC" "US")])
  = (ok (Json 200 (VDict [("data",
                           VList [VDict [("name", VStr "B");
                                         ("age", VInt 25)]])])),
     stored [("0123456789abcdef0123456a", mkRow "A" 20 "Pune" "IN");
             ("0123456789abcdef0123456b", mkRow "B" 25 "Pune" "IN");
             ("0123456789abcdef0123456c", mkRow "C" 25 "NYC" "US")]).
Proof.
  apply (proj1 (list_students_filters
                  [("0123456789abcdef0123456a", mkRow "A" 20 "Pune" "IN");
                   ("0123456789abcdef0123456b", mkRow "B" 25 "Pune" "IN");
                   ("0123456789abcdef0123456c", mkRow "C" 25 "NYC" "US")])
               "IN" 22).
  - discriminate.
  - reflexivity.
Defined.

(** C10: with country equal to the empty string list_students does what
    it does without a country, on every collection and for every age; an
    age bound, 0 included, still enters the query, and when it fits in 8
    bytes only the student records of at least that age are listed. *)
Theorem empty_country_is_no_filter :
  (forall age c, list_students (Some "") age c = list_students None age c)
  /\ (forall age, list_query (Some "") (Some age) = [(["age"], CGte age)])
  /\ list_query (Some "") (Some 0) = [(["age"], CGte 0)]
  /\ (forall age rows,
         int64 age = true ->
         list_students (Some "") (Some age) (stored rows)
         = (ok (listing
                  (firstn 1000 (filter (at_least age) (map snd rows)))),
            stored rows)).
Proof.
  split; [reflexivity|]. split; [reflexivity|]. split; [reflexivity|].
  intros age rows Ha. apply list_students_rows.
  { now rewrite list_query_encodes, Ha. }
  intros r. unfold at_least. simpl. unfold cond_holds. simpl.
  now rewrite orb_false_r, andb_true_r.
Qed.

Lemma empty_country_is_no_filter_witness :
  list_students (Some "") (Some 0)
    (stored [("0123456789abcdef0123456a", mkRow "A" (-1) "Pune" "IN");
             ("0123456789abcdef0123456b", mkRow "B" 0 "NYC" "US")])
  = (ok (Json 200 (VDict [("data",
                           VList [VDict [("name", VStr "B");
                                         ("age", VInt 0)]])])),
     stored [("0123456789abcdef0123456a", mkRow "A" (-1) "Pune" "IN");
             ("0123456789abcdef0123456b", mkRow "B" 0 "NYC" "US")]).
Proof.
  apply (proj2 (proj2 (proj2 empty_country_is_no_filter)) 0
           [("0123456789abcdef0123456a", mkRow "A" (-1) "Pune" "IN");
            ("0123456789abcdef0123456b", mkRow "B" 0 "NYC" "US")]).
  reflexivity.
Defined.

(** ** The data-model invariants *)

(** X13: create_student keeps the invariants: what it stores went
    through the constructor. *)
Lemma create_student_keeps_valid (fresh : oid) (data : dict)
      (c : collection) :
  valid_collection c = true ->
  valid_collection (snd (create_student fresh data c)) = true.
Proof.
  intros Hc. unfold create_student, try_except, bind, lift.
  destruct (n <- dict_getitem data "name" ;;
            a <- dict_getitem data "age" ;;
            addr <- dict_getitem data "address" ;;
            Student_init n a addr) as [e|s] eqn:Es.
  - destruct e; exact Hc.
  - unfold db_insert_one.
    destruct (bson_error (VDict (Student_to_dict s))) as [e|];
      [destruct e; exact Hc|].
    unfold insert_one.
    destruct (find_one c fresh); [exact Hc|]. simpl.
    unfold valid_collection. rewrite map_app, forallb_app. simpl.
    fold (valid_collection c). rewrite Hc. simpl.
    unfold valid_document.
    assert (Hs : exists n a addr, Student_init n a addr = ok s).
    { unfold rbind, dict_getitem in Es.
      destruct (dict_get data "name") as [n|]; [|discriminate].
      destruct (dict_get data "age") as [a|]; [|discriminate].
      destruct (dict_get data "address") as [addr|]; [|discriminate].
      exists n, a, addr. exact Es. }
    destruct Hs as (n & a & addr & Hs).
    apply Student_init_valid in Hs.
    unfold valid_student, valid_address in Hs. rewrite !andb_true_iff in Hs.
    destruct Hs as [[[[Hn Hs] Hi] Ha] [Hc' Hk]]. cbn in Hc', Hk |- *.
    unfold dict_get_default. cbn.
    now rewrite Hn, Hs, Hi, Ha, Hc', Hk.
Qed.

(** C3 fails on update_student, which writes the values of the body as
    they are: after a create, an update with an empty name succeeds and the
    stored record has an empty name; likewise with a negative age. *)
Theorem update_stores_invalid_values :
  let ann := [("name", VStr "Ann"); ("age", VInt 20);
              ("address", VDict [("city", VStr "Pune");
                                 ("country", VStr "IN")])] in
  let i := "0123456789abcdef01234567" in
  let c1 := snd (create_student i ann []) in
  valid_collection c1 = true
  /\ update_student i [("name", VStr "")] c1
     = (ok (Response 204),
        [(i, [("name", VStr ""); ("age", VInt 20);
              ("address", VDict [("city", VStr "Pune");
                                 ("country", VStr "IN")])])])
  /\ valid_collection (snd (update_student i [("name", VStr "")] c1)) = false
  /\ update_student i [("age", VInt (-1))] c1
     = (ok (Response 204),
        [(i, [("name", VStr "Ann"); ("age", VInt (-1));
              ("address", VDict [("city", VStr "Pune");
                                 ("country", VStr "IN")])])])
  /\ valid_collection (snd (update_student i [("age", VInt (-1))] c1)) = false.
Proof.
  repeat split; vm_compute; reflexivity.
Qed.

(** * Further properties of the handlers *)

(** ** The handlers, one step at a time *)

(** The driver raises nothing but its two encoding errors. *)
Lemma bson_error_raises (v : pyval) (e : exn) :
  bson_error v = Some e -> e = OverflowError \/ e = InvalidDocument.
Proof.
  induction v using pyval_nested_ind; simpl; try discriminate.
  - destruct (int64 z); [discriminate|]. intros E. injection E as <-. now left.
  - induction H as [|x l Hx Hl IH]; [discriminate|].
    destruct (bson_error x) as [e'|].
    + intros E. injection E as ->. now apply Hx.
    + exact IH.
  - induction H as [|[k x] d Hx Hd IH]; [discriminate|].
    destruct (has_nul k); [intros E; injection E as <-; now right|].
    simpl in Hx. destruct (bson_error x) as [e'|].
    + intros E. injection E as ->. now apply Hx.
    + exact IH.
Qed.

Lemma create_student_steps (fresh : oid) (data : dict) (c : collection) :
  create_student fresh data c =
  match Student_from_dict data with
  | inl e => (throw (HTTPException 400 (Msg (str_exn e))), c)
  | inr s =>
      match bson_error (VDict (Student_to_dict s)) with
      | Some e => (throw e, c)
      | None =>
          match find_one c fresh with
          | Some _ => (throw DuplicateKeyError, c)
          | None => (ok (Json 201 (VDict [("id", VStr fresh)])),
                     (c ++ [(fresh, Student_to_dict s)])%list)
          end
      end
  end.
Proof.
  unfold create_student, try_except, bind, lift.
  change (n <- dict_getitem data "name" ;;
          a <- dict_getitem data "age" ;;
          addr <- dict_getitem data "address" ;;
          Student_init n a addr) with (Student_from_dict data).
  destruct (Student_from_dict data) as [e|s] eqn:E.
  - destruct (Student_from_dict_raises data e E) as [[k ->]|[m ->]];
      reflexivity.
  - unfold db_insert_one.
    destruct (bson_error (VDict (Student_to_dict s))) as [e'|] eqn:Ee.
    + destruct (bson_error_raises _ _ Ee) as [-> | ->]; reflexivity.
    + unfold insert_one. destruct (find_one c fresh); reflexivity.
Qed.

Lemma fetch_student_steps (id : string) (c : collection) :
  fetch_student id c =
  match ObjectId id with
  | inl e => (inl e, c)
  | inr i =>
      match find_one c i with
      | None => (throw not_found, c)
      | Some d => (ok (fetched i d), c)
      end
  end.
Proof.
  unfold fetch_student, bind, lift, db_find_one.
  destruct (ObjectId id) as [e|i]; [reflexivity|]. unfold ok.
  destruct (find_one c i); reflexivity.
Qed.

Lemma delete_student_steps (id : string) (c : collection) :
  delete_student id c =
  match ObjectId id with
  | inl e => (inl e, c)
  | inr i =>
      (if snd (delete_one c i) =? 0
       then throw not_found else ok (Json 200 (VDict [])),
       fst (delete_one c i))
  end.
Proof.
  unfold delete_student, bind, lift, db_delete_one.
  destruct (ObjectId id) as [e|i]; [reflexivity|].
  destruct (delete_one c i) as [c' n]. simpl. now destruct (n =? 0).
Qed.

Lemma find_one_app_fresh (c : collection) (i : oid) (d : document) :
  find_one c i = None -> find_one (c ++ [(i, d)])%list i = Some d.
Proof.
  induction c as [|[j d'] c IH]; simpl.
  - now rewrite String.eqb_refl.
  - destruct (String.eqb j i); [discriminate | exact IH].
Qed.

Lemma delete_one_other (c : collection) (i j : oid) :
  j <> i -> find_one (fst (delete_one c i)) j = find_one c j.
Proof.
  intros Hne. induction c as [|[k d] c IH]; simpl; [reflexivity|].
  destruct (String.eqb k i) eqn:Eki.
  - apply String.eqb_eq in Eki. subst k. simpl.
    assert (E : String.eqb i j = false) by (apply String.eqb_neq; congruence).
    now rewrite E.
  - destruct (delete_one c i) as [c' n]. simpl in *. now rewrite IH.
Qed.

Lemma update_one_other (c : collection) (i j : oid) (upd : dict) :
  j <> i -> find_one (fst (update_one c i upd)) j = find_one c j.
Proof.
  intros Hne. induction c as [|[k d] c IH]; simpl; [reflexivity|].
  destruct (String.eqb k i) eqn:Eki.
  - apply String.eqb_eq in Eki. subst k.
    assert (E : String.eqb i j = false) by (apply String.eqb_neq; congruence).
    destruct (dict_eqb (apply_set d upd) d); simpl; now rewrite E.
  - destruct (update_one c i upd) as [c' n]. simpl in *. now rewrite IH.
Qed.

Lemma update_one_target (c : collection) (i : oid) (upd : dict)
      (d : document) :
  find_one c i = Some d ->
  find_one (fst (update_one c i upd)) i = Some (apply_set d upd).
Proof.
  intros Hf. destruct (dict_eqb (apply_set d upd) d) eqn:E.
  - apply dict_eqb_eq in E.
    rewrite (update_one_same c i upd d Hf E). simpl. now rewrite E.
  - assert (Hne : apply_set d upd <> d).
    { intros H. apply dict_eqb_eq in H. congruence. }
    now destruct (update_one_changed c i upd d Hf Hne).
Qed.

(** ** create_student *)

(** X1: when create_student succeeds it returns the identifier of the new
    document, and a fetch of that identifier then returns the name, the age
    and the city and country of the constructed Student, followed by the
    identifier. *)
Theorem create_then_fetch (fresh : oid) (data : dict) (c c' : collection)
        (r : response) :
  ObjectId fresh = ok fresh ->
  create_student fresh data c = (ok r, c') ->
  exists s,
    Student_from_dict data = ok s
    /\ r = Json 201 (VDict [("id", VStr fresh)])
    /\ fetch_student fresh c'
       = (ok (Json 200
                (VDict [("name", name s); ("age", age s);
                        ("address",
                         VDict [("city", city (address s));
                                ("country", country (address s))]);
                        ("id", VStr fresh)])),
          c').
Proof.
  intros Hid H. rewrite create_student_steps in H.
  destruct (Student_from_dict data) as [e|s]; [discriminate|].
  destruct (bson_error (VDict (Student_to_dict s))); [discriminate|].
  destruct (find_one c fresh) eqn:Ef; [discriminate|].
  injection H as <- <-. exists s. repeat split.
  rewrite fetch_student_steps, Hid. unfold ok.
  now rewrite (find_one_app_fresh c fresh _ Ef).
Qed.

Lemma create_then_fetch_witness :
  exists s,
    Student_from_dict
      [("name", VStr "Ann"); ("age", VInt 20);
       ("address", VDict [("city", VStr "Pune"); ("country", VStr "IN")])]
    = ok s
    /\ Json 201 (VDict [("id", VStr "0123456789abcdef01234567")])
       = Json 201 (VDict [("id", VStr "0123456789abcdef01234567")])
    /\ fetch_student "0123456789abcdef01234567"
         [("0123456789abcdef01234567",
           [("name", VStr "Ann"); ("age", VInt 20);
            ("address",
             VDict [("city", VStr "Pune"); ("country", VStr "IN")])])]
       = (ok (Json 200
                (VDict [("name", name s); ("age", age s);
                        ("address",
                         VDict [("city", city (address s));
                                ("country", country (address s))]);
                        ("id", VStr "0123456789abcdef01234567")])),
          [("0123456789abcdef01234567",
            [("name", VStr "Ann"); ("age", VInt 20);
             ("address",
              VDict [("city", VStr "Pune"); ("country", VStr "IN")])])]).
Proof.
  apply (create_then_fetch
           "0123456789abcdef01234567"
           [("name", VStr "Ann"); ("age", VInt 20);
            ("address", VDict [("city", VStr "Pune"); ("country", VStr "IN")])]
           []); reflexivity.
Defined.

(** X2: a successful create_student adds exactly one document, after the
    existing ones, which stay as they were; the document holds the name and
    the age of the body and the city and country of its address, and no
    other key of the body or of its address. *)
Theorem create_appends_one_document (fresh : oid) (data : dict)
        (c c' : collection) (r : response) :
  create_student fresh data c = (ok r, c') ->
  exists n a d,
    dict_get data "name" = Some n
    /\ dict_get data "age" = Some a
    /\ dict_get data "address" = Some (VDict d)
    /\ c' = (c ++ [(fresh,
                    [("name", n); ("age", a);
                     ("address",
                      VDict [("city", dict_get_default d "city");
                             ("country", dict_get_default d "country")])])])%list.
Proof.
  intros H. rewrite create_student_steps in H.
  destruct (Student_from_dict data) as [e|s] eqn:Es; [discriminate|].
  destruct (bson_error (VDict (Student_to_dict s))); [discriminate|].
  destruct (find_one c fresh); [discriminate|]. injection H as _ <-.
  unfold Student_from_dict, dict_getitem in Es.
  destruct (dict_get data "name") as [n|]; [|discriminate].
  destruct (dict_get data "age") as [a|]; [|discriminate].
  destruct (dict_get data "address") as [addr|]; [|discriminate].
  simpl in Es. unfold Student_init, Address_init in Es.
  destruct (negb (truthy n) || negb (is_str n)); [discriminate|].
  destruct (negb (is_int a) || int_negative a); [discriminate|].
  destruct addr as [| | | | | |d]; try discriminate.
  destruct (negb (truthy (dict_get_default d "city"))
            || negb (truthy (dict_get_default d "country")));
    [discriminate|].
  simpl in Es. injection Es as <-. exists n, a, d. repeat split.
Qed.

Lemma create_appends_one_document_witness :
  exists n a d,
    dict_get [("role", VStr "admin"); ("name", VStr "Ann"); ("age", VInt 20);
              ("address", VDict [("city", VStr "Pune"); ("zip", VInt 4);
                                 ("country", VStr "IN")])] "name" = Some n
    /\ dict_get [("role", VStr "admin"); ("name", VStr "Ann");
                 ("age", VInt 20);
                 ("address", VDict [("city", VStr "Pune"); ("zip", VInt 4);
                                    ("country", VStr "IN")])] "age" = Some a
    /\ dict_get [("role", VStr "admin"); ("name", VStr "Ann");
                 ("age", VInt 20);
                 ("address", VDict [("city", VStr "Pune"); ("zip", VInt 4);
                                    ("country", VStr "IN")])] "address"
       = Some (VDict d)
    /\ [("0123456789abcdef01234567",
         [("name", VStr "Ann"); ("age", VInt 20);
          ("address", VDict [("city", VStr "Pune"); ("country", VStr "IN")])])]
       = ([] ++ [("0123456789abcdef01234567",
                  [("name", n); ("age", a);
                   ("address",
                    VDict [("city", dict_get_default d "city");
                           ("country", dict_get_default d "country")])])])%list.
Proof.
  apply (create_appends_one_document
           "0123456789abcdef01234567" _ []
           _ (Json 201 (VDict [("id", VStr "0123456789abcdef01234567")]))).
  reflexivity.
Defined.

(** X3: a body without name, age or address makes create_student raise a
    400 whose detail is the first missing key in quotes; an address without
    city or country, under an accepted name and age, makes it raise the 400
    "City and country are required"; nothing is stored. *)
Theorem create_missing_key (fresh : oid) (data : dict) (c : collection) :
  (dict_get data "name" = None ->
   create_student fresh data c
   = (throw (HTTPException 400 (Msg "'name'")), c))
  /\ (dict_get data "name" <> None -> dict_get data "age" = None ->
      create_student fresh data c
      = (throw (HTTPException 400 (Msg "'age'")), c))
  /\ (dict_get data "name" <> None -> dict_get data "age" <> None ->
      dict_get data "address" = None ->
      create_student fresh data c
      = (throw (HTTPException 400 (Msg "'address'")), c))
  /\ (forall n a d,
         dict_get data "name" = Some n -> dict_get data "age" = Some a ->
         dict_get data "address" = Some (VDict d) ->
         truthy n = true -> is_str n = true ->
         is_int a = true -> int_negative a = false ->
         dict_get d "city" = None \/ dict_get d "country" = None ->
         create_student fresh data c
         = (throw (HTTPException 400 (Msg "City and country are required")),
            c)).
Proof.
  rewrite create_student_steps.
  unfold Student_from_dict, dict_getitem. repeat split.
  - intros ->. reflexivity.
  - intros Hn Ha. destruct (dict_get data "name"); [|congruence].
    rewrite Ha. reflexivity.
  - intros Hn Ha Hd. destruct (dict_get data "name"); [|congruence].
    destruct (dict_get data "age"); [|congruence].
    rewrite Hd. reflexivity.
  - intros n a d -> -> -> Hn Hs Hi Ha Hd. simpl.
    unfold Student_init, Address_init, dict_get_default.
    rewrite Hn, Hs, Hi, Ha. simpl.
    destruct Hd as [-> | ->]; simpl; [reflexivity|].
    now rewrite orb_true_r.
Qed.

Lemma create_missing_key_witness :
  create_student "0123456789abcdef01234567" [("age", VInt 20)] []
  = (throw (HTTPException 400 (Msg "'name'")), [])
  /\ create_student "0123456789abcdef01234567" [("name", VStr "Ann")] []
     = (throw (HTTPException 400 (Msg "'age'")), [])
  /\ create_student "0123456789abcdef01234567"
       [("name", VStr "Ann"); ("age", VInt 20)] []
     = (throw (HTTPException 400 (Msg "'address'")), [])
  /\ create_student "0123456789abcdef01234567"
       [("name", VStr "Ann"); ("age", VInt 20);
        ("address", VDict [("city", VStr "Pune")])] []
     = (throw (HTTPException 400 (Msg "City and country are required")), []).
Proof.
  split; [|split; [|split]].
  - apply (proj1 (create_missing_key _ [("age", VInt 20)] [])).
    reflexivity.
  - apply (proj1 (proj2 (create_missing_key _ [("name", VStr "Ann")] [])));
      [discriminate | reflexivity].
  - apply (proj1 (proj2 (proj2 (create_missing_key
                                  _ [("name", VStr "Ann"); ("age", VInt 20)]
                                  []))));
      [discriminate | discriminate | reflexivity].
  - apply (proj2 (proj2 (proj2 (create_missing_key
                                  _ [("name", VStr "Ann"); ("age", VInt 20);
                                     ("address",
                                      VDict [("city", VStr "Pune")])]
                                  [])))
             (VStr "Ann") (VInt 20) [("city", VStr "Pune")]);
      try reflexivity. right. reflexivity.
Defined.

(** ** delete_student *)

(** X4: a delete of a stored record returns the empty 200 response and
    removes that record only: every other identifier finds what it found
    before, and, identifiers being distinct, a fetch of the deleted one
    then raises the 404. *)
Theorem delete_removes_only_the_target
        (id : string) (i : oid) (c : collection) (d : document) :
  ObjectId id = ok i ->
  find_one c i = Some d ->
  NoDup (map fst c) ->
  delete_student id c
  = (ok (Json 200 (VDict [])), snd (delete_student id c))
  /\ (forall j, j <> i ->
                find_one (snd (delete_student id c)) j = find_one c j)
  /\ fetch_student id (snd (delete_student id c))
     = (throw (HTTPException 404 (Msg "Student not found")),
        snd (delete_student id c)).
Proof.
  intros Hi Hf Hnd. rewrite delete_student_steps, Hi. unfold ok.
  destruct (delete_one_present c i d Hf Hnd) as [Hn Hg].
  cbn [snd]. rewrite Hn. simpl. repeat split.
  - intros j Hj. now apply delete_one_other.
  - rewrite fetch_student_steps, Hi. unfold ok. now rewrite Hg.
Qed.

Lemma delete_removes_only_the_target_witness :
  delete_student "0123456789ABCDEF0123456A"
    [("0123456789abcdef0123456a", [("name", VStr "A")]);
     ("0123456789abcdef0123456b", [("name", VStr "B")])]
  = (ok (Json 200 (VDict [])),
     [("0123456789abcdef0123456b", [("name", VStr "B")])]).
Proof.
  refine (proj1 (delete_removes_only_the_target
                   "0123456789ABCDEF0123456A" "0123456789abcdef0123456a"
                   [("0123456789abcdef0123456a", [("name", VStr "A")]);
                    ("0123456789abcdef0123456b", [("name", VStr "B")])]
                   [("name", VStr "A")] eq_refl eq_refl _)).
  simpl. repeat constructor; simpl; [|tauto].
  intros [H|[]]. discriminate H.
Defined.

(** ** update_student *)

Lemma dict_get_set_other {A} (d : list (string * A)) (k k' : string) (v : A) :
  k <> k' -> dict_get (dict_set d k v) k' = dict_get d k'.
Proof.
  intros Hne. induction d as [|[j w] d IH]; simpl.
  - apply String.eqb_neq in Hne. now rewrite Hne.
  - destruct (String.eqb j k) eqn:E; simpl.
    + apply String.eqb_eq in E. subst j.
      apply String.eqb_neq in Hne. now rewrite Hne.
    + now rewrite IH.
Qed.

Lemma dict_set_same {A} (d : list (string * A)) (k : string) (v : A) :
  dict_get d k = Some v -> dict_set d k v = d.
Proof.
  induction d as [|[j w] d IH]; simpl; [discriminate|].
  destruct (String.eqb j k).
  - intros E. now injection E as ->.
  - intros E. now rewrite (IH E).
Qed.

(** [update_data] has the name and the age of the body, when given, and an
    address exactly when the body has one. *)
Lemma merge_update_fields (student : document) (body upd : dict) :
  merge_update student body = ok upd ->
  exists A,
    upd = (field "name" (dict_get body "name")
           ++ field "age" (dict_get body "age")
           ++ field "address" A)%list
    /\ (dict_get body "address" = None <-> A = None).
Proof.
  unfold merge_update, dict_has, dict_getitem, rbind.
  destruct (dict_get body "name") as [n|];
    destruct (dict_get body "age") as [a|];
    destruct (dict_get body "address") as [ua|]; simpl;
    repeat match goal with
           | |- context [match ?x with _ => _ end] => destruct x
           end;
    try discriminate;
    intros E; injection E as <-;
    (eexists (Some _) + exists None); simpl;
    (split; [reflexivity | split; congruence]).
Qed.

Ltac dict_lookup :=
  repeat (rewrite dict_get_set_same
          || rewrite dict_get_set_other by discriminate).

(** X5: after a successful update the record holds the name and the age
    the body gave; a name, an age or an address the body did not give is
    the stored one; every other record is as it was, and the identifiers
    of the collection are the same. *)
Theorem update_keeps_the_rest
        (id : string) (i : oid) (body : dict) (c c' : collection)
        (student : document) (r : response) :
  ObjectId id = ok i ->
  find_one c i = Some student ->
  update_student id body c = (ok r, c') ->
  exists student',
    find_one c' i = Some student'
    /\ (forall k v, k = "name" \/ k = "age" ->
                    dict_get body k = Some v -> dict_get student' k = Some v)
    /\ (forall k, k = "name" \/ k = "age" \/ k = "address" ->
                  dict_get body k = None ->
                  dict_get student' k = dict_get student k)
    /\ (forall j, j <> i -> find_one c' j = find_one c j)
    /\ map fst c' = map fst c.
Proof.
  intros Hi Hf Hu.
  rewrite update_student_steps, Hi in Hu. unfold ok in Hu.
  destruct (key_checks body) as [e|[]]; [discriminate|].
  rewrite Hf in Hu.
  destruct (merge_update student body) as [e|upd] eqn:Hm; [discriminate|].
  destruct (bson_error (VDict upd)); [discriminate|].
  destruct (snd (update_one c i upd) =? 0); [discriminate|].
  injection Hu as _ <-.
  exists (apply_set student upd).
  split; [now apply update_one_target|].
  destruct (merge_update_fields student body upd Hm) as (A & -> & HA).
  unfold apply_set, field.
  split; [|split; [|split]].
  - intros k v [-> | ->] Hk; rewrite Hk;
      destruct (dict_get body "name"), (dict_get body "age"), A;
      simpl; dict_lookup; congruence.
  - intros k [-> | [-> | ->]] Hk; try rewrite Hk;
      try (apply HA in Hk; subst A);
      destruct (dict_get body "name"), (dict_get body "age");
      try destruct A; simpl; dict_lookup; congruence.
  - intros j Hj. now apply update_one_other.
  - apply update_one_ids.
Qed.

Lemma update_keeps_the_rest_witness :
  exists student',
    find_one
      [("0123456789abcdef01234567",
        [("name", VStr "Bea"); ("age", VInt 20);
         ("address", VDict [("city", VStr "Pune"); ("country", VStr "IN")])])]
      "0123456789abcdef01234567" = Some student'
    /\ dict_get student' "name" = Some (VStr "Bea")
    /\ dict_get student' "age" = Some (VInt 20).
Proof.
  destruct (update_keeps_the_rest
              "0123456789abcdef01234567" "0123456789abcdef01234567"
              [("name", VStr "Bea")]
              [("0123456789abcdef01234567",
                [("name", VStr "Ann"); ("age", VInt 20);
                 ("address",
                  VDict [("city", VStr "Pune"); ("country", VStr "IN")])])]
              [("0123456789abcdef01234567",
                [("name", VStr "Bea"); ("age", VInt 20);
                 ("address",
                  VDict [("city", VStr "Pune"); ("country", VStr "IN")])])]
              [("name", VStr "Ann"); ("age", VInt 20);
               ("address",
                VDict [("city", VStr "Pune"); ("country", VStr "IN")])]
              (Response 204) eq_refl eq_refl eq_refl)
    as (student' & Hf & Hgiven & Hkept & _).
  exists student'. split; [exact Hf|]. split.
  - apply (Hgiven "name"); [left; reflexivity | reflexivity].
  - rewrite (Hkept "age"); [reflexivity | right; left; reflexivity
                            | reflexivity].
Defined.

Lemma create_student_keeps_valid_witness :
  valid_collection
    (snd (create_student "0123456789abcdef0123456a"
            [("name", VStr "Ann"); ("age", VInt 20);
             ("address",
              VDict [("city", VStr "Pune"); ("country", VStr "IN")])]
            [])) = true.
Proof.
  apply create_student_keeps_valid. reflexivity.
Defined.

(** ** The shape of the stored documents *)

Lemma update_one_Forall (P : document -> Prop) (c : collection) (i : oid)
      (upd : dict) :
  Forall P (map snd c) ->
  (forall d, find_one c i = Some d -> P (apply_set d upd)) ->
  Forall P (map snd (fst (update_one c i upd))).
Proof.
  induction c as [|[j d] c IH]; simpl; [constructor|].
  intros Hall Hd. inversion Hall as [|? ? Hp Hrest]; subst.
  destruct (String.eqb j i).
  - destruct (dict_eqb (apply_set d upd) d); simpl; constructor; auto.
  - specialize (IH Hrest Hd).
    destruct (update_one c i upd) as [c' n]. simpl in *. constructor; auto.
Qed.

Lemma delete_one_Forall (P : document -> Prop) (c : collection) (i : oid) :
  Forall P (map snd c) -> Forall P (map snd (fst (delete_one c i))).
Proof.
  induction c as [|[j d] c IH]; simpl; [constructor|].
  intros Hall. inversion Hall as [|? ? Hp Hrest]; subst.
  destruct (String.eqb j i); simpl; [exact Hrest|].
  specialize (IH Hrest).
  destruct (delete_one c i) as [c' n]. simpl in *. constructor; auto.
Qed.

Lemma shaped_Student_to_dict (s : Student) : shaped (Student_to_dict s).
Proof.
  exists (name s), (age s), (city (address s)), (country (address s)).
  reflexivity.
Qed.

Lemma merge_update_shaped (student : document) (body upd : dict) :
  shaped student ->
  merge_update student body = ok upd ->
  shaped (apply_set student upd).
Proof.
  intros (n & a & ci & k & ->).
  unfold merge_update, dict_has, dict_getitem, rbind.
  destruct (dict_get body "name") as [n'|];
    destruct (dict_get body "age") as [a'|];
    destruct (dict_get body "address") as [ua|]; simpl;
    repeat match goal with
           | |- context [py_contains ?key ?v] =>
               destruct (py_contains key v) as [?|[]]; simpl
           | |- context [py_getitem ?v ?key] =>
               destruct (py_getitem v key); simpl
           end;
    try discriminate;
    intros E; injection E as <-; simpl;
    do 4 eexists; reflexivity.
Qed.

(** X6: the handlers keep the shape of the stored documents: when every
    document consists of name, age and an address of city and country,
    in this order, so does every document after a create, an update or a
    delete, whatever the request; an update never adds a field to a
    document or to its address. *)
Theorem handlers_keep_shape (c : collection) :
  Forall shaped (map snd c) ->
  (forall fresh data,
      Forall shaped (map snd (snd (create_student fresh data c))))
  /\ (forall id body,
         Forall shaped (map snd (snd (update_student id body c))))
  /\ (forall id, Forall shaped (map snd (snd (delete_student id c)))).
Proof.
  intros Hc. repeat split.
  - intros fresh data. rewrite create_student_steps.
    destruct (Student_from_dict data) as [e|s]; [exact Hc|].
    destruct (bson_error (VDict (Student_to_dict s))); [exact Hc|].
    destruct (find_one c fresh); [exact Hc|]. cbn [snd].
    rewrite map_app. apply Forall_app. split; [exact Hc|].
    repeat constructor. apply shaped_Student_to_dict.
  - intros id body. rewrite update_student_steps.
    destruct (key_checks body); [exact Hc|].
    destruct (ObjectId id) as [e|i]; [exact Hc|].
    destruct (find_one c i) as [student|] eqn:Hf; [|exact Hc].
    destruct (merge_update student body) as [e|upd] eqn:Hm; [exact Hc|].
    destruct (bson_error (VDict upd)); [exact Hc|].
    cbn [snd]. apply update_one_Forall; [exact Hc|].
    intros d Hd. rewrite Hf in Hd. injection Hd as <-.
    apply (merge_update_shaped student body upd); [|exact Hm].
    clear - Hc Hf. induction c as [|[j d] c IH]; [discriminate|].
    simpl in Hf, Hc. inversion Hc as [|? ? Hp Hrest]; subst.
    destruct (String.eqb j i); [now injection Hf as <- | auto].
  - intros id. rewrite delete_student_steps.
    destruct (ObjectId id) as [e|i]; [exact Hc|].
    simpl. now apply delete_one_Forall.
Qed.

Lemma handlers_keep_shape_witness :
  Forall shaped
    (map snd
       (snd (update_student "0123456789abcdef0123456a"
               [("address", VDict [("country", VInt 7)])]
               [("0123456789abcdef0123456a",
                 [("name", VStr "Ann"); ("age", VInt 20);
                  ("address",
                   VDict [("city", VStr "Pune"); ("country", VStr "IN")])])]))).
Proof.
  apply (proj1 (proj2 (handlers_keep_shape
                         [("0123456789abcdef0123456a",
                           [("name", VStr "Ann"); ("age", VInt 20);
                            ("address",
                             VDict [("city", VStr "Pune");
                                    ("country", VStr "IN")])])]
                         ltac:(repeat constructor; do 4 eexists;
                               reflexivity)))).
Defined.

(** ** list_students on any collection *)

Lemma map_result_length {A B} (f : A -> result B) (l : list A)
      (ys : list B) :
  map_result f l = ok ys -> List.length ys = List.length l.
Proof.
  revert ys. induction l as [|x l IH]; simpl; intros ys.
  - intros E. now injection E as <-.
  - unfold rbind. destruct (f x) as [e|y]; [discriminate|].
    destruct (map_result f l) as [e|ys']; [discriminate|].
    intros E. injection E as <-. simpl. now rewrite (IH ys').
Qed.

Lemma map_result_Forall {A B} (f : A -> result B) (P : B -> Prop)
      (l : list A) (ys : list B) :
  (forall x y, f x = ok y -> P y) ->
  map_result f l = ok ys -> Forall P ys.
Proof.
  intros Hf. revert ys. induction l as [|x l IH]; simpl; intros ys.
  - intros E. injection E as <-. constructor.
  - unfold rbind. destruct (f x) as [e|y] eqn:Ex; [discriminate|].
    destruct (map_result f l) as [e|ys']; [discriminate|].
    intros E. injection E as <-. constructor; [now apply (Hf x) | now apply IH].
Qed.

(** X7: on any collection and with any filters, a list_students that
    returns gives status 200 with at most 1000 items under the key data,
    each of them a mapping of name and age only, and leaves the collection
    as it was. *)
Theorem list_students_bounded_projection
        (country : option string) (age : option Z) (c c' : collection)
        (r : response) :
  list_students country age c = (ok r, c') ->
  c' = c
  /\ exists data,
      r = Json 200 (VDict [("data", VList data)])
      /\ (List.length data <= 1000)%nat
      /\ Forall (fun item => exists n a,
                     item = VDict [("name", n); ("age", a)]) data.
Proof.
  unfold list_students, bind, db_find, lift, ret.
  destruct (query_error (list_query country age));
    [intros H; discriminate H|]. unfold ok. cbv beta iota.
  destruct (map_result list_item
              (find_to_list c (list_query country age) 1000))
    as [e|data] eqn:E; intros H; [discriminate H|].
  injection H as <- <-. split; [reflexivity|].
  exists data. split; [reflexivity|]. split.
  - rewrite (map_result_length _ _ _ E). unfold find_to_list.
    apply firstn_le_length.
  - refine (map_result_Forall list_item _ _ _ _ E).
    intros x y. unfold list_item, dict_getitem, rbind.
    destruct (dict_get x "name") as [n|]; [|discriminate].
    destruct (dict_get x "age") as [a|]; [|discriminate].
    intros H. injection H as <-. eauto.
Qed.

Lemma list_students_bounded_projection_witness :
  [("0123456789abcdef0123456a",
    [("name", VStr "Ann"); ("age", VInt 20); ("address", VNone)])]
  = [("0123456789abcdef0123456a",
      [("name", VStr "Ann"); ("age", VInt 20); ("address", VNone)])]
  /\ exists data,
      Json 200 (VDict [("data", VList [VDict [("name", VStr "Ann");
                                              ("age", VInt 20)]])])
      = Json 200 (VDict [("data", VList data)])
      /\ (List.length data <= 1000)%nat
      /\ Forall (fun item => exists n a,
                     item = VDict [("name", n); ("age", a)]) data.
Proof.
  apply (list_students_bounded_projection
           None (Some 0)
           [("0123456789abcdef0123456a",
             [("name", VStr "Ann"); ("age", VInt 20); ("address", VNone)])]).
  reflexivity.
Defined.

(** ** update_student, repeated *)

Lemma merge_update_address (student : document) (body : dict) :
  merge_update student body =
  match dict_get body "address" with
  | None =>
      ok (field "name" (dict_get body "name")
          ++ field "age" (dict_get body "age"))%list
  | Some ua =>
      A <- merged_address (stored_address student) ua ;;
      ok (field "name" (dict_get body "name")
          ++ field "age" (dict_get body "age") ++ [("address", A)])%list
  end.
Proof.
  unfold merge_update, merged_address, stored_address, dict_has,
    dict_getitem, rbind.
  destruct (dict_get body "name") as [n|];
    destruct (dict_get body "age") as [a|];
    destruct (dict_get body "address") as [ua|]; simpl; try reflexivity;
    destruct (py_copy _) as [?|addr]; try reflexivity;
    destruct (py_contains "city" ua) as [?|[]]; try reflexivity;
    try (destruct (py_getitem ua "city") as [?|v]; try reflexivity;
         destruct (py_setitem addr "city" v) as [?|addr']; try reflexivity);
    destruct (py_contains "country" ua) as [?|[]]; try reflexivity;
    try (destruct (py_getitem ua "country") as [?|w]; try reflexivity);
    match goal with
    | |- context [py_setitem ?x "country" ?y] =>
        destruct (py_setitem x "country" y); reflexivity
    end.
Qed.

(** Merging into an address that was merged from the same body changes
    nothing. *)
Lemma merged_address_again (stored ua A : pyval) :
  merged_address stored ua = ok A -> merged_address A ua = ok A.
Proof.
  unfold merged_address, rbind.
  destruct stored as [| | | | |l|x]; simpl; try discriminate;
    destruct (py_contains "city" ua) as [?|[]] eqn:Ec; simpl;
    try discriminate;
    try (destruct (py_getitem ua "city") as [?|v] eqn:Ev; simpl;
         try discriminate);
    destruct (py_contains "country" ua) as [?|[]] eqn:Ek; simpl;
    try discriminate;
    try (destruct (py_getitem ua "country") as [?|w] eqn:Ew; simpl;
         try discriminate);
    intros E; injection E as <-; simpl;
    rewrite ?Ec, ?Ev, ?Ek, ?Ew; simpl; rewrite ?Ek, ?Ew; simpl;
    repeat (rewrite dict_set_same
              by (dict_lookup; reflexivity));
    reflexivity.
Qed.

Lemma apply_set_lookup (d : document) (x y z : option pyval) :
  (forall v, x = Some v ->
             dict_get (apply_set d (field "name" x ++ field "age" y
                                    ++ field "address" z)%list) "name" = Some v)
  /\ (forall v, y = Some v ->
                dict_get (apply_set d (field "name" x ++ field "age" y
                                       ++ field "address" z)%list) "age" = Some v)
  /\ (forall v, z = Some v ->
                dict_get (apply_set d (field "name" x ++ field "age" y
                                       ++ field "address" z)%list) "address"
                = Some v).
Proof.
  unfold apply_set, field.
  repeat split; intros v E; destruct x, y, z; try discriminate E;
    injection E as ->; simpl; dict_lookup; reflexivity.
Qed.

Lemma apply_set_again (d : document) (x y z : option pyval) :
  apply_set (apply_set d (field "name" x ++ field "age" y
                          ++ field "address" z)%list)
            (field "name" x ++ field "age" y ++ field "address" z)%list
  = apply_set d (field "name" x ++ field "age" y ++ field "address" z)%list.
Proof.
  destruct (apply_set_lookup d x y z) as (Hn & Ha & Hd).
  set (D := apply_set d (field "name" x ++ field "age" y
                         ++ field "address" z)%list) in *.
  clearbody D. unfold apply_set, field.
  destruct x as [n|], y as [a|], z as [ad|]; simpl;
    rewrite ?(dict_set_same D "name" _ (Hn _ eq_refl));
    rewrite ?(dict_set_same D "age" _ (Ha _ eq_refl));
    rewrite ?(dict_set_same D "address" _ (Hd _ eq_refl));
    reflexivity.
Qed.

(** X8: a successful update sent a second time with the same body finds
    nothing left to modify: it raises the 404 "Student not found" although
    the record exists, and leaves the collection as the first one made
    it. *)
Theorem repeated_update_is_not_found
        (id : string) (body : dict) (c c' : collection) (r : response) :
  update_student id body c = (ok r, c') ->
  update_student id body c'
  = (throw (HTTPException 404 (Msg "Student not found")), c').
Proof.
  intros Hu. rewrite update_student_steps in Hu.
  rewrite update_student_steps.
  destruct (key_checks body) as [e|[]]; [discriminate|].
  destruct (ObjectId id) as [e|i]; [discriminate|].
  destruct (find_one c i) as [student|] eqn:Hf; [|discriminate].
  destruct (merge_update student body) as [e|upd] eqn:Hm; [discriminate|].
  destruct (bson_error (VDict upd)) eqn:He; [discriminate|].
  destruct (snd (update_one c i upd) =? 0); [discriminate|].
  injection Hu as _ <-.
  rewrite (update_one_target c i upd student Hf).
  assert (H2 : merge_update (apply_set student upd) body = ok upd
               /\ apply_set (apply_set student upd) upd
                  = apply_set student upd).
  { rewrite merge_update_address in Hm. rewrite merge_update_address.
    destruct (dict_get body "address") as [ua|].
    - unfold rbind in Hm.
      destruct (merged_address (stored_address student) ua) as [e|A] eqn:HA;
        [discriminate|].
      injection Hm as <-.
      change [("address", A)] with (field "address" (Some A)).
      destruct (apply_set_lookup student (dict_get body "name")
                                 (dict_get body "age") (Some A))
        as (_ & _ & Hd).
      unfold stored_address. rewrite (Hd A eq_refl).
      rewrite (merged_address_again _ ua A HA). simpl.
      split; [reflexivity|].
      exact (apply_set_again student _ _ (Some A)).
    - injection Hm as <-. split; [reflexivity|].
      assert (E : (field "name" (dict_get body "name")
                   ++ field "age" (dict_get body "age"))%list
                  = (field "name" (dict_get body "name")
                     ++ field "age" (dict_get body "age")
                     ++ field "address" None)%list).
      { simpl. now rewrite app_nil_r. }
      rewrite E. apply apply_set_again. }
  destruct H2 as [-> Hsame]. unfold ok. cbv beta iota. rewrite He.
  rewrite (update_one_same _ i upd _ (update_one_target c i upd student Hf)
                           Hsame).
  reflexivity.
Qed.

Lemma repeated_update_is_not_found_witness :
  update_student "0123456789abcdef01234567"
    [("address", VDict [("city", VStr "Mumbai")])]
    [("0123456789abcdef01234567",
      [("name", VStr "Ann"); ("age", VInt 20);
       ("address", VDict [("city", VStr "Mumbai"); ("country", VStr "IN")])])]
  = (throw (HTTPException 404 (Msg "Student not found")),
     [("0123456789abcdef01234567",
       [("name", VStr "Ann"); ("age", VInt 20);
        ("address",
         VDict [("city", VStr "Mumbai"); ("country", VStr "IN")])])]).
Proof.
  apply (repeated_update_is_not_found
           "0123456789abcdef01234567"
           [("address", VDict [("city", VStr "Mumbai")])]
           [("0123456789abcdef01234567",
             [("name", VStr "Ann"); ("age", VInt 20);
              ("address",
               VDict [("city", VStr "Pune"); ("country", VStr "IN")])])]
           _ (Response 204)).
  reflexivity.
Defined.

(** ** update_student: bodies the key checks accept, and addresses they
    cannot iterate *)

Lemma find_all_allowed (allowed keys : list string) :
  (forall k, In k keys -> str_in k allowed = true) ->
  find (fun k => negb (str_in k allowed)) keys = None.
Proof.
  induction keys as [|k keys IH]; simpl; [reflexivity|].
  intros H. rewrite (H k (or_introl eq_refl)). simpl.
  apply IH. intros k' Hk'. apply H. now right.
Qed.

(** X9: a body whose keys are among name, age and address, and whose
    address, if any, is a mapping with keys among city and country, passes
    the key checks of update_student, which leave the collection as it
    is. *)
Theorem known_fields_pass_the_checks (body : dict) (c : collection) :
  (forall k, In k (map fst body) ->
             str_in k ALLOWED_TOP_LEVEL_FIELDS = true) ->
  (forall a, dict_get body "address" = Some a ->
             exists d, a = VDict d
                       /\ forall k, In k (map fst d) ->
                                    str_in k ALLOWED_ADDRESS_FIELDS = true) ->
  validate_update body c = (ok tt, c).
Proof.
  intros Htop Haddr. unfold validate_update, bind at 1.
  rewrite top_loop, (find_all_allowed _ _ Htop). unfold ok.
  unfold dict_has, dict_getitem.
  destruct (dict_get body "address") as [a|]; [|reflexivity].
  destruct (Haddr a eq_refl) as (d & -> & Hd).
  unfold bind, lift. simpl.
  now rewrite address_loop, (find_all_allowed _ _ Hd).
Qed.

Lemma known_fields_pass_the_checks_witness :
  validate_update
    [("age", VInt 21); ("address", VDict [("country", VStr "IN")])] []
  = (ok tt, []).
Proof.
  apply known_fields_pass_the_checks.
  - intros k [<-|[<-|[]]]; reflexivity.
  - intros a E. injection E as <-. exists [("country", VStr "IN")].
    split; [reflexivity|]. intros k [<-|[]]. reflexivity.
Defined.

(** X10: when the keys of the body are allowed and its address is null, a
    boolean or a number, the loop over the address cannot iterate:
    update_student ends with an uncaught TypeError, whatever the identifier
    and the collection, and writes nothing. *)
Theorem update_with_scalar_address (body : dict) (v : pyval) :
  (forall k, In k (map fst body) ->
             str_in k ALLOWED_TOP_LEVEL_FIELDS = true) ->
  dict_get body "address" = Some v ->
  scalar v = true ->
  forall id c, update_student id body c = (throw TypeError, c).
Proof.
  intros Htop Hv Hs id c. rewrite update_student_steps.
  assert (E : key_checks body = throw TypeError).
  { unfold key_checks, validate_update, bind at 1.
    rewrite top_loop, (find_all_allowed _ _ Htop). unfold ok.
    unfold dict_has, dict_getitem, bind, lift. rewrite Hv. simpl.
    destruct v; try discriminate Hs; reflexivity. }
  now rewrite E.
Qed.

Lemma update_with_scalar_address_witness :
  update_student "0123456789abcdef01234567" [("address", VNone)]
    [("0123456789abcdef01234567",
      [("name", VStr "Ann"); ("age", VInt 20);
       ("address", VDict [("city", VStr "Pune"); ("country", VStr "IN")])])]
  = (throw TypeError,
     [("0123456789abcdef01234567",
       [("name", VStr "Ann"); ("age", VInt 20);
        ("address",
         VDict [("city", VStr "Pune"); ("country", VStr "IN")])])]).
Proof.
  apply (update_with_scalar_address [("address", VNone)] VNone);
    try reflexivity.
  intros k [<-|[]]. reflexivity.
Defined.

(** ** Requests that fail, requests that read *)

Lemma update_one_zero (c : collection) (i : oid) (upd : dict) :
  snd (update_one c i upd) = 0 -> fst (update_one c i upd) = c.
Proof.
  induction c as [|[j d] c IH]; simpl; [reflexivity|].
  destruct (String.eqb j i).
  - destruct (dict_eqb (apply_set d upd) d); simpl;
      [reflexivity | discriminate].
  - destruct (update_one c i upd) as [c' n]. simpl in *.
    intros Hn. now rewrite (IH Hn).
Qed.

Lemma delete_one_zero (c : collection) (i : oid) :
  snd (delete_one c i) = 0 -> fst (delete_one c i) = c.
Proof.
  induction c as [|[j d] c IH]; simpl; [reflexivity|].
  destruct (String.eqb j i); simpl; [discriminate|].
  destruct (delete_one c i) as [c' n]. simpl in *.
  intros Hn. now rewrite (IH Hn).
Qed.

(** X11: no handler writes and then fails: whenever create_student,
    update_student or delete_student raises, whatever the exception, the
    collection is as it was before the request; fetch_student and
    list_students never change it. *)
Theorem failed_request_writes_nothing (c : collection) :
  (forall fresh data e,
      fst (create_student fresh data c) = throw e ->
      snd (create_student fresh data c) = c)
  /\ (forall id body e,
         fst (update_student id body c) = throw e ->
         snd (update_student id body c) = c)
  /\ (forall id e,
         fst (delete_student id c) = throw e ->
         snd (delete_student id c) = c)
  /\ (forall id, snd (fetch_student id c) = c)
  /\ (forall country age, snd (list_students country age c) = c).
Proof.
  split; [|split; [|split; [|split]]].
  - intros fresh data e. rewrite create_student_steps.
    destruct (Student_from_dict data) as [?|s]; [reflexivity|].
    destruct (bson_error (VDict (Student_to_dict s))); [reflexivity|].
    destruct (find_one c fresh); [reflexivity | discriminate].
  - intros id body e. rewrite update_student_steps.
    destruct (key_checks body); [reflexivity|].
    destruct (ObjectId id) as [?|i]; [reflexivity|].
    destruct (find_one c i) as [student|]; [|reflexivity].
    destruct (merge_update student body) as [?|upd]; [reflexivity|].
    destruct (bson_error (VDict upd)); [reflexivity|].
    cbn [fst snd].
    destruct (snd (update_one c i upd) =? 0) eqn:E; [|discriminate].
    intros _. apply update_one_zero. now apply Z.eqb_eq.
  - intros id e. rewrite delete_student_steps.
    destruct (ObjectId id) as [?|i]; [reflexivity|].
    simpl. destruct (snd (delete_one c i) =? 0) eqn:E; [|discriminate].
    intros _. apply delete_one_zero. now apply Z.eqb_eq.
  - intros id. rewrite fetch_student_steps.
    destruct (ObjectId id) as [?|i]; [reflexivity|].
    destruct (find_one c i); reflexivity.
  - intros country age. unfold list_students, bind, db_find, lift, ret.
    destruct (query_error (list_query country age)); [reflexivity|].
    unfold ok. cbv beta iota.
    destruct (map_result list_item _); reflexivity.
Qed.

Lemma failed_request_writes_nothing_witness :
  snd (update_student "0123456789abcdef01234567" []
         [("0123456789abcdef01234567", [("name", VStr "Ann")])])
  = [("0123456789abcdef01234567", [("name", VStr "Ann")])].
Proof.
  apply (proj1 (proj2 (failed_request_writes_nothing
                         [("0123456789abcdef01234567",
                           [("name", VStr "Ann")])]))
           "0123456789abcdef01234567" [] not_found).
  reflexivity.
Defined.


